(** * ETL pipeline of the ERP database manager: a shallow embedding

    This development embeds the transform stage of
    [sistema_sgbd_completo.py] and its orchestration in [main_etl].

    - Python values that end up in an output tuple ([None], [int], [float],
      [str]) are the inductive type [pyval].
    - A Python [float] is a binary64 number, represented by
      [SpecFloat.spec_float] at precision 53 and maximal exponent 1024.
    - A Python [set] of integers is a [gset Z].
    - Code that may raise is written in the [result] monad; a [try/except]
      is [catch] with the tuple of exception classes it names.
    - The file system and the SQLite sink are outside the program: reading
      a CSV file and executing an insert are parameters of [main_etl], and
      the calls the program makes to them are recorded in a trace. *)

From Stdlib Require Import ZArith List Bool Ascii String Lia.
From Stdlib Require Import Floats.SpecFloat.
From stdpp Require Import base decidable gmap.
Import ListNotations.

Local Open Scope Z_scope.
Local Open Scope string_scope.

(** ** Exceptions and the [result] monad *)

Inductive exn : Type :=
| ValueError
| TypeError
| OverflowError
| IndexError
| Sqlite3Error.

Definition exn_eqb (a b : exn) : bool :=
  match a, b with
  | ValueError, ValueError
  | TypeError, TypeError
  | OverflowError, OverflowError
  | IndexError, IndexError
  | Sqlite3Error, Sqlite3Error => true
  | _, _ => false
  end.

Inductive result (A : Type) : Type :=
| Ok (a : A)
| Raise (e : exn).

Arguments Ok {A} a.
Arguments Raise {A} e.

#[global] Instance result_ret : MRet result := fun A a => Ok a.

#[global] Instance result_bind : MBind result := fun A B k m =>
  match m with
  | Ok a => k a
  | Raise e => Raise e
  end.

(** [try: body except (classes): handler]. *)
Definition catch {A : Type} (body : result A) (classes : list exn)
    (handler : result A) : result A :=
  match body with
  | Ok a => Ok a
  | Raise e => if existsb (exn_eqb e) classes then handler else Raise e
  end.

Definition raises {A : Type} (m : result A) : bool :=
  match m with
  | Ok _ => false
  | Raise _ => true
  end.

(** ** Python values and truthiness *)

Definition pyfloat : Type := spec_float.

Inductive pyval : Type :=
| VNone
| VInt (z : Z)
| VFloat (f : pyfloat)
| VStr (s : string).

Definition float_truthy (f : pyfloat) : bool :=
  match f with
  | S754_zero _ => false
  | _ => true
  end.

Definition truthy (v : pyval) : bool :=
  match v with
  | VNone => false
  | VInt z => negb (z =? 0)%Z
  | VFloat f => float_truthy f
  | VStr s => negb (String.eqb s "")
  end.

(** [x or y]. *)
Definition py_or (x y : pyval) : pyval := if truthy x then x else y.

Definition of_int (o : option Z) : pyval :=
  match o with
  | Some z => VInt z
  | None => VNone
  end.

Definition of_float (o : option pyfloat) : pyval :=
  match o with
  | Some f => VFloat f
  | None => VNone
  end.

(** [row[i]] on a list: [IndexError] past the end (the program only uses
    non-negative literal indices). *)
Definition getitem (row : list string) (i : nat) : result string :=
  match nth_error row i with
  | Some s => Ok s
  | None => Raise IndexError
  end.

(** ** The builtins [str.replace], [float] and [int]

    These belong to the Python runtime, not to the repository.  They are
    modelled here on ASCII text, after the language reference's grammar
    for [float(str)]:

      floatvalue ::= [sign] (floatnumber | "inf" | "infinity" | "nan")
      floatnumber ::= ([digitpart] "." digitpart | digitpart ["."]) [exponent]
      digitpart ::= digit (["_"] digit)*
      exponent ::= ("e" | "E") [sign] digitpart

    with surrounding whitespace stripped, letters of the special values
    case-insensitive, and the decimal value rounded to the nearest binary64
    number, ties to even.  A character outside ASCII makes the parse fail
    here; CPython additionally accepts non-ASCII decimal digits and
    white space. *)

Module Builtins.

Definition prec : Z := 53.
Definition emax : Z := 1024.

Definition comma : ascii := ","%char.

(** [s.replace(',', '')]. *)
Fixpoint remove_commas (s : string) : string :=
  match s with
  | EmptyString => EmptyString
  | String c s' =>
      if Ascii.eqb c comma then remove_commas s' else String c (remove_commas s')
  end.

Definition is_space (c : ascii) : bool :=
  let n := nat_of_ascii c in
  (((9 <=? n) && (n <=? 13)) || (n =? 32))%nat.

Definition is_digit (c : ascii) : bool :=
  let n := nat_of_ascii c in ((48 <=? n) && (n <=? 57))%nat.

Definition digit_val (c : ascii) : Z := Z.of_nat (nat_of_ascii c) - 48.

Definition to_lower (c : ascii) : ascii :=
  let n := nat_of_ascii c in
  if ((65 <=? n) && (n <=? 90))%nat then ascii_of_nat (n + 32) else c.

Fixpoint lstrip (l : list ascii) : list ascii :=
  match l with
  | c :: l' => if is_space c then lstrip l' else l
  | [] => []
  end.

Definition strip (l : list ascii) : list ascii :=
  rev (lstrip (rev (lstrip l))).

(** The longest prefix of [l] of the shape [(["_"] digit)*], as the list
    of its digits, and what follows it. *)
Fixpoint digits_tail (l : list ascii) : list ascii * list ascii :=
  match l with
  | [] => ([], [])
  | c :: l' =>
      if is_digit c then
        let (ds, r) := digits_tail l' in (c :: ds, r)
      else if Ascii.eqb c "_"%char then
        match l' with
        | d :: l'' =>
            if is_digit d then
              let (ds, r) := digits_tail l'' in (d :: ds, r)
            else ([], l)
        | [] => ([], l)
        end
      else ([], l)
  end.

(** An optional [digitpart]: no digits when [l] does not start with one. *)
Definition digitpart (l : list ascii) : list ascii * list ascii :=
  match l with
  | c :: l' =>
      if is_digit c then let (ds, r) := digits_tail l' in (c :: ds, r)
      else ([], l)
  | [] => ([], [])
  end.

Definition digits_value (ds : list ascii) : Z :=
  fold_left (fun acc c => 10 * acc + digit_val c) ds 0.

(** An optional sign: [true] for "-". *)
Definition take_sign (l : list ascii) : bool * list ascii :=
  match l with
  | c :: l' =>
      if Ascii.eqb c "-"%char then (true, l')
      else if Ascii.eqb c "+"%char then (false, l')
      else (false, l)
  | [] => (false, [])
  end.

(** An optional exponent that must reach the end of the text. *)
Definition exponent (l : list ascii) : option Z :=
  match l with
  | [] => Some 0
  | c :: l' =>
      if Ascii.eqb (to_lower c) "e"%char then
        let (neg, l1) := take_sign l' in
        match digitpart l1 with
        | ((_ :: _) as ds, []) =>
            Some (if neg then - digits_value ds else digits_value ds)
        | _ => None
        end
      else None
  end.

(** The binary64 number nearest to [(-1)^s * m * 10^e]. *)
Definition round_decimal (s : bool) (m e : Z) : pyfloat :=
  match m with
  | Zpos p =>
      let num := Z.to_pos (Zpos p * 10 ^ Z.max e 0) in
      let den := Z.to_pos (10 ^ Z.max (- e) 0) in
      SFdiv prec emax (S754_finite s num 0) (S754_finite false den 0)
  | _ => S754_zero s
  end.

Definition floatnumber (s : bool) (l : list ascii) : option pyfloat :=
  let (ip, l1) := digitpart l in
  let '(dot, (fp, l2)) :=
    match l1 with
    | c :: l1' =>
        if Ascii.eqb c "."%char then (true, digitpart l1') else (false, ([], l1))
    | [] => (false, ([], []))
    end in
  match ip, fp with
  | [], [] => None
  | _, _ =>
      match exponent l2 with
      | Some e =>
          Some (round_decimal s (digits_value (ip ++ fp)%list)
                  (e - Z.of_nat (List.length fp)))
      | None => None
      end
  end.

Definition special (s : bool) (l : list ascii) : option pyfloat :=
  let w := string_of_list_ascii (map to_lower l) in
  if String.eqb w "inf" || String.eqb w "infinity" then Some (S754_infinity s)
  else if String.eqb w "nan" then Some S754_nan
  else None.

(** [float(s)] for a string [s]. *)
Definition py_float (s : string) : result pyfloat :=
  let (sg, body) := take_sign (strip (list_ascii_of_string s)) in
  match special sg body with
  | Some f => Ok f
  | None =>
      match floatnumber sg body with
      | Some f => Ok f
      | None => Raise ValueError
      end
  end.

(** [int(x)] for a float [x]: truncation towards zero. *)
Definition py_int (x : pyfloat) : result Z :=
  match x with
  | S754_zero _ => Ok 0
  | S754_infinity _ => Raise OverflowError
  | S754_nan => Raise ValueError
  | S754_finite s m e =>
      let a := match e with
               | Zneg k => Z.shiftr (Zpos m) (Zpos k)
               | _ => Z.shiftl (Zpos m) e
               end in
      Ok (if s then - a else a)
  end.

(** The float [f] is exactly the rational [n / d]. *)
Definition float_exactly (f : pyfloat) (n d : Z) : Prop :=
  match f with
  | S754_zero _ => n = 0
  | S754_finite s m e =>
      let sm := if s then Zneg m else Zpos m in
      match e with
      | Zneg k => sm * d = n * 2 ^ Zpos k
      | _ => sm * 2 ^ e * d = n
      end
  | _ => False
  end.

End Builtins.

(** ** Scalar coercion *)

(** [_safe_convert_to_int]; [None] as the argument is Python's [None]. *)
Definition _safe_convert_to_int (value_str : option string) : result (option Z) :=
  match value_str with
  | None | Some "" => Ok None
  | Some s =>
      catch
        (let cleaned_str := Builtins.remove_commas s in
         f ← Builtins.py_float cleaned_str;
         z ← Builtins.py_int f;
         Ok (Some z))
        [ValueError; TypeError; OverflowError]
        (Ok None)
  end.

(** [_safe_convert_to_float]. *)
Definition _safe_convert_to_float (value_str : option string)
    : result (option pyfloat) :=
  match value_str with
  | None | Some "" => Ok None
  | Some s =>
      catch
        (let cleaned_str := Builtins.remove_commas s in
         f ← Builtins.py_float cleaned_str;
         Ok (Some f))
        [ValueError; TypeError]
        (Ok None)
  end.

(** ** Primary-key set builder *)

(** The body of the [for row in data] loop of [get_valid_pk_set], with the
    set built so far as accumulator. *)
Fixpoint pk_loop (data : list (list string)) (pk_column_index : nat)
    (valid_ids : gset Z) : result (gset Z) :=
  match data with
  | [] => Ok valid_ids
  | row :: data' =>
      match row with
      | [] => pk_loop data' pk_column_index valid_ids
      | _ :: _ =>
          s ← getitem row pk_column_index;
          pk_int ← _safe_convert_to_int (Some s);
          let valid_ids' :=
            match pk_int with
            | Some z => if truthy (VInt z) then {[ z ]} ∪ valid_ids else valid_ids
            | None => valid_ids
            end in
          pk_loop data' pk_column_index valid_ids'
      end
  end.

Definition get_valid_pk_set (data : list (list string)) (pk_column_index : nat)
    : result (gset Z) :=
  pk_loop data pk_column_index ∅.

(** ** Foreign-key resolvers *)

(** [clean_foreign_key]: annotated [Optional[int]], hence [option Z]. *)
Definition clean_foreign_key (fk_string : string) (valid_pk_set : gset Z)
    (default : Z) : result (option Z) :=
  fk_int ← _safe_convert_to_int (Some fk_string);
  match fk_int with
  | None => Ok (Some 0)
  | Some z =>
      if (z =? 0)%Z then Ok (Some 0)
      else if bool_decide (z ∉ valid_pk_set) then Ok (Some 0)
      else Ok (Some z)
  end.

(** [_tratamento_fk_com_default]: annotated [int]. *)
Definition _tratamento_fk_com_default (fk_string : string)
    (valid_pk_set : gset Z) (valor_default : Z) : result Z :=
  fk_int ← _safe_convert_to_int (Some fk_string);
  match fk_int with
  | None => Ok valor_default
  | Some z =>
      if (z =? 0)%Z then Ok valor_default
      else if bool_decide (z ∉ valid_pk_set) then Ok valor_default
      else Ok z
  end.

(** ** Row transformers

    An output tuple is the list of its cells.  The cells are evaluated
    from left to right, so the first [row[i]] past the end of the row
    raises. *)

Definition tuple : Type := list pyval.

(** [_safe_convert_to_int(row[i])] *)
Definition int_at (row : list string) (i : nat) : result pyval :=
  s ← getitem row i; v ← _safe_convert_to_int (Some s); mret (of_int v).

(** [_safe_convert_to_float(row[i])] *)
Definition float_at (row : list string) (i : nat) : result pyval :=
  s ← getitem row i; v ← _safe_convert_to_float (Some s); mret (of_float v).

(** [row[i]] *)
Definition str_at (row : list string) (i : nat) : result pyval :=
  s ← getitem row i; mret (VStr s).

(** [clean_foreign_key(row[i], valid_ids)], the default left at [0] *)
Definition fk_at (row : list string) (i : nat) (valid_ids : gset Z)
    : result pyval :=
  s ← getitem row i; v ← clean_foreign_key s valid_ids 0; mret (of_int v).

(** [e or d] for a literal [d] *)
Definition or_lit (e : result pyval) (d : pyval) : result pyval :=
  v ← e; mret (py_or v d).

Definition nao_informado : pyval := VStr "Não Informado".

Definition float_zero : pyval := VFloat (S754_zero false).

Definition repres_row (row : list string) : result tuple :=
  c0 ← int_at row 0;
  c1 ← or_lit (str_at row 1) VNone;
  c2 ← or_lit (str_at row 2) VNone;
  c3 ← float_at row 3;
  mret [c0; c1; c2; c3].

Definition fornclien_row (valid_repres_ids : gset Z) (row : list string)
    : result tuple :=
  c0 ← int_at row 0;
  c1 ← int_at row 1;
  c2 ← fk_at row 2 valid_repres_ids;
  c3 ← or_lit (str_at row 3) nao_informado;
  c4 ← or_lit (str_at row 4) nao_informado;
  c5 ← or_lit (str_at row 5) (VStr "ND");
  c6 ← or_lit (float_at row 6) nao_informado;
  c7 ← int_at row 7;
  c8 ← int_at row 8;
  c9 ← or_lit (float_at row 9) nao_informado;
  mret [c0; c1; c2; c3; c4; c5; c6; c7; c8; c9].

Definition produtos_row (valid_fornclien_ids : gset Z) (row : list string)
    : result tuple :=
  c0 ← int_at row 0;
  c1 ← or_lit (str_at row 1) VNone;
  c2 ← fk_at row 2 valid_fornclien_ids;
  c3 ← int_at row 3;
  c4 ← or_lit (float_at row 4) nao_informado;
  c5 ← or_lit (float_at row 5) nao_informado;
  c6 ← or_lit (float_at row 6) nao_informado;
  c7 ← or_lit (float_at row 7) nao_informado;
  c8 ← or_lit (float_at row 8) nao_informado;
  c9 ← int_at row 9;
  c10 ← or_lit (str_at row 10) (VStr "0");
  c11 ← or_lit (float_at row 11) nao_informado;
  c12 ← or_lit (float_at row 12) nao_informado;
  mret [c0; c1; c2; c3; c4; c5; c6; c7; c8; c9; c10; c11; c12].

(** [x in [1, 2]] for the result of an integer coercion *)
Definition in_1_2 (v : pyval) : bool :=
  match v with
  | VInt z => (z =? 1)%Z || (z =? 2)%Z
  | _ => false
  end.

(** [_safe_convert_to_int(row[i]) if _safe_convert_to_int(row[i]) in [1, 2]
    else 1]: the condition is evaluated first. *)
Definition finalidnfe_at (row : list string) (i : nat) : result pyval :=
  c ← int_at row i;
  if in_1_2 c then int_at row i else mret (VInt 1).

Definition pedidos_row (valid_fornclien_ids : gset Z) (row : list string)
    : result tuple :=
  c0 ← or_lit (int_at row 0) (VInt 0);
  c1 ← or_lit (str_at row 1) VNone;
  c2 ← or_lit (str_at row 2) VNone;
  c3 ← or_lit (fk_at row 3 valid_fornclien_ids) (VInt 0);
  c4 ← or_lit (str_at row 4) VNone;
  c5 ← finalidnfe_at row 5;
  c6 ← or_lit (int_at row 6) (VInt 2);
  c7 ← or_lit (float_at row 7) float_zero;
  c8 ← or_lit (int_at row 8) (VInt 0);
  c9 ← or_lit (float_at row 9) float_zero;
  c10 ← or_lit (float_at row 10) float_zero;
  c11 ← or_lit (float_at row 11) float_zero;
  c12 ← or_lit (float_at row 12) float_zero;
  c13 ← or_lit (float_at row 13) float_zero;
  c14 ← or_lit (float_at row 14) float_zero;
  mret [c0; c1; c2; c3; c4; c5; c6; c7; c8; c9; c10; c11; c12; c13; c14].

Definition pedidositem_row (valid_pedidos_ids valid_produtos_ids : gset Z)
    (row : list string) : result tuple :=
  c0 ← fk_at row 0 valid_pedidos_ids;
  c1 ← int_at row 1;
  c2 ← fk_at row 2 valid_produtos_ids;
  c3 ← float_at row 3;
  c4 ← float_at row 4;
  c5 ← or_lit (str_at row 5) (VStr "UN");
  c6 ← float_at row 6;
  c7 ← float_at row 7;
  c8 ← int_at row 8;
  c9 ← or_lit (float_at row 9) (VStr "5102");
  c10 ← float_at row 10;
  mret [c0; c1; c2; c3; c4; c5; c6; c7; c8; c9; c10].

(** [for row in data: cleaned.append(f(row))] *)
Fixpoint for_rows (f : list string -> result tuple) (data : list (list string))
    : result (list tuple) :=
  match data with
  | [] => Ok []
  | row :: data' =>
      cleaned_row ← f row;
      cleaned ← for_rows f data';
      mret (cleaned_row :: cleaned)
  end.

(** [cleaned = []; if data: for row in data: ...] *)
Definition if_data (f : list string -> result tuple) (data : list (list string))
    : result (list tuple) :=
  match data with
  | [] => Ok []
  | _ :: _ => for_rows f data
  end.

(** ** The orchestrator

    [main_etl] talks to two things outside the program.  The file system
    is [fs]: the rows [csv.reader] yields for a file name, header line
    included, or [None] when the file cannot be opened or decoded.  The
    SQLite sink is [executemany]: given the calls made so far, it accepts
    the rows or raises.  Every call is recorded in a trace; console output
    is not modelled. *)

Inductive event : Type :=
| EvRead (filename : string)
| EvInsert (nome_tabela : string) (colunas : list string)
    (dados : list tuple) (nome_banco : string).

Definition trace : Type := list event.

Definition etl (A : Type) : Type := trace -> trace * result A.

#[global] Instance etl_ret : MRet etl := fun A a t => (t, Ok a).

#[global] Instance etl_bind : MBind etl := fun A B k m t =>
  match m t with
  | (t', Ok a) => k a t'
  | (t', Raise e) => (t', Raise e)
  end.

Definition lift {A : Type} (r : result A) : etl A := fun t => (t, r).

Definition log (e : event) : etl unit := fun t => ((t ++ [e])%list, Ok tt).

Definition history : etl trace := fun t => (t, Ok t).

Section Pipeline.

Variable fs : string -> option (list (list string)).

Variable executemany :
  trace -> string -> list string -> list tuple -> string -> result unit.

(** [read_csv_file]: every exception is caught and gives [(None, None)],
    also the [StopIteration] of [next(reader)] on a file without a line. *)
Definition read_csv_file (filename : string)
    : etl (option (list string) * option (list (list string))) :=
  _ ← log (EvRead filename);
  match fs filename with
  | Some (header :: data) => mret (Some header, Some data)
  | Some [] => mret (None, None)
  | None => mret (None, None)
  end.

(** [insere_dados_tabela]: [sqlite3.Error] is caught, anything else the
    driver raises is not. *)
Definition insere_dados_tabela (nome_tabela : string) (colunas : list string)
    (dados : list tuple) (nome_banco : string) : etl bool :=
  h ← history;
  _ ← log (EvInsert nome_tabela colunas dados nome_banco);
  lift (catch (_ ← executemany h nome_tabela colunas dados nome_banco; Ok true)
          [Sqlite3Error] (Ok false)).

Definition file_repres : string := "DadosERPRepres.csv".
Definition file_fornclien : string := "DadosERPFornClien.csv".
Definition file_produtos : string := "DadosERPProdutos.csv".
Definition file_pedidos : string := "DadosERPPedidos.csv".
Definition file_pedidositem : string := "DadosERPPedidosItem.csv".

(** The [[6/6]] part of [main_etl]: five inserts, stopping at the first
    one that fails. *)
Definition load (cleaned_repres cleaned_fornclien cleaned_produtos
    cleaned_pedidos cleaned_pedidositem : list tuple) (nome_banco : string)
    : etl bool :=
  ok ← insere_dados_tabela "Repres"
         ["CODREPRES"; "TIPOPESS"; "NOMEFAN"; "COMISSAOBASE"]
         cleaned_repres nome_banco;
  if negb ok then mret false else
  ok ← insere_dados_tabela "FornClien"
         ["CODCLIFOR"; "TIPOCF"; "CODREPRES"; "NOMEFAN"; "CIDADE"; "UF";
          "CODMUNICIPIO"; "TIPOPESSOA"; "COBRBANC"; "PRAZOPGTO"]
         cleaned_fornclien nome_banco;
  if negb ok then mret false else
  ok ← insere_dados_tabela "Produtos"
         ["CODPROD"; "NOMEPROD"; "CODFORNE"; "UNIDADE"; "ALIQICMS";
          "VALCUSTO"; "VALVENDA"; "QTDEMIN"; "QTDEESTQ"; "GRUPO";
          "CLASSEESTQ"; "COMISSAO"; "PESOBRUTO"]
         cleaned_produtos nome_banco;
  if negb ok then mret false else
  ok ← insere_dados_tabela "Pedidos"
         ["NUMPED"; "DATAPPED"; "HORAPPED"; "CODCLIEN"; "ES"; "FINALIDNFE";
          "SITUACAO"; "PESO"; "PRAZOPGTO"; "VALORPRODS"; "VALORDESC";
          "VALOR"; "VALBASEICMS"; "VALICMS"; "COMISSAO"]
         cleaned_pedidos nome_banco;
  if negb ok then mret false else
  ok ← insere_dados_tabela "PedidosItem"
         ["NUMPED"; "NUMITEM"; "CODPROD"; "QTDE"; "VALUNIT"; "UNID";
          "ALIQICMS"; "COMISSAO"; "STICMS"; "CFOP"; "REDUCBASEICMS"]
         cleaned_pedidositem nome_banco;
  if negb ok then mret false else
  mret true.

(** The transformation part of [main_etl]. *)
Definition transform (data_repres data_fornclien data_produtos data_pedidos
    data_pedidositem : list (list string))
    (valid_repres_ids valid_fornclien_ids valid_produtos_ids
     valid_pedidos_ids : gset Z)
    : result (list tuple * list tuple * list tuple * list tuple * list tuple) :=
  cleaned_repres ← if_data repres_row data_repres;
  cleaned_fornclien ← if_data (fornclien_row valid_repres_ids) data_fornclien;
  cleaned_produtos ← if_data (produtos_row valid_fornclien_ids) data_produtos;
  cleaned_pedidos ← if_data (pedidos_row valid_fornclien_ids) data_pedidos;
  cleaned_pedidositem ←
    for_rows (pedidositem_row valid_pedidos_ids valid_produtos_ids)
      data_pedidositem;
  mret (cleaned_repres, cleaned_fornclien, cleaned_produtos, cleaned_pedidos,
        cleaned_pedidositem).

Definition main_etl (nome_banco : string) : etl bool :=
  '(_, data_repres) ← read_csv_file file_repres;
  match data_repres with
  | None => mret false
  | Some data_repres =>
  valid_repres_ids ← lift (get_valid_pk_set data_repres 0);
  '(_, data_fornclien) ← read_csv_file file_fornclien;
  match data_fornclien with
  | None => mret false
  | Some data_fornclien =>
  valid_fornclien_ids ← lift (get_valid_pk_set data_fornclien 0);
  '(_, data_produtos) ← read_csv_file file_produtos;
  match data_produtos with
  | None => mret false
  | Some data_produtos =>
  valid_produtos_ids ← lift (get_valid_pk_set data_produtos 0);
  '(_, data_pedidos) ← read_csv_file file_pedidos;
  match data_pedidos with
  | None => mret false
  | Some data_pedidos =>
  valid_pedidos_ids ← lift (get_valid_pk_set data_pedidos 0);
  '(_, data_pedidositem) ← read_csv_file file_pedidositem;
  match data_pedidositem with
  | None => mret false
  | Some data_pedidositem =>
  '(cleaned_repres, cleaned_fornclien, cleaned_produtos, cleaned_pedidos,
    cleaned_pedidositem) ←
    lift (transform data_repres data_fornclien data_produtos data_pedidos
            data_pedidositem valid_repres_ids valid_fornclien_ids
            valid_produtos_ids valid_pedidos_ids);
  load cleaned_repres cleaned_fornclien cleaned_produtos cleaned_pedidos
    cleaned_pedidositem nome_banco
  end end end end end.

End Pipeline.

(** ** The declared column types

    The dictionaries [main_database] creates the Client/Supplier and the
    Product tables from, in the order of their keys. *)

Module MainDatabase.

Definition colunas_fornclien : list (string * string) :=
  [ ("CODCLIFOR", "INTEGER PRIMARY KEY");
    ("TIPOCF", "INTEGER NOT NULL CHECK(TIPOCF IN (1, 2))");
    ("CODREPRES", "INTEGER NOT NULL DEFAULT 0 REFERENCES Repres(CODREPRES)");
    ("NOMEFAN", "TEXT(50) NOT NULL CHECK(LENGTH(NOMEFAN) <= 50)");
    ("CIDADE", "TEXT(50) NOT NULL");
    ("UF", "TEXT(2) NOT NULL CHECK(LENGTH(UF) <= 2)");
    ("CODMUNICIPIO", "INTEGER NOT NULL");
    ("TIPOPESSOA", "INTEGER NOT NULL CHECK(TIPOPESSOA IN (1, 2))");
    ("COBRBANC", "INTEGER NOT NULL DEFAULT 0 CHECK(COBRBANC IN (-1, 0, 1))");
    ("PRAZOPGTO", "INTEGER NOT NULL DEFAULT 0") ].

Definition colunas_produtos : list (string * string) :=
  [ ("CODPROD", "INTEGER PRIMARY KEY");
    ("NOMEPROD", "TEXT NOT NULL CHECK(LENGTH(NOMEPROD) <= 50)");
    ("CODFORNE", "INTEGER NOT NULL REFERENCES FornClien(CODCLIFOR)");
    ("UNIDADE", "INTEGER NOT NULL");
    ("ALIQICMS", "REAL NOT NULL DEFAULT 0");
    ("VALCUSTO", "REAL NOT NULL DEFAULT 0");
    ("VALVENDA", "REAL NOT NULL DEFAULT 0");
    ("QTDEMIN", "REAL NOT NULL DEFAULT 1");
    ("QTDEESTQ", "REAL NOT NULL");
    ("GRUPO", "INTEGER NOT NULL DEFAULT 1");
    ("CLASSEESTQ", "TEXT NOT NULL DEFAULT 'A' CHECK(LENGTH(CLASSEESTQ) <= 1)");
    ("COMISSAO", "REAL NOT NULL DEFAULT 0");
    ("PESOBRUTO", "REAL NOT NULL") ].

(** A column is numeric when its declared type starts with INTEGER or
    REAL. *)
Definition numeric (tipo : string) : bool :=
  String.prefix "INTEGER" tipo || String.prefix "REAL" tipo.

End MainDatabase.

(** The tuple [t] holds the text "Não Informado" in the position of the
    numeric column [coluna] of the table declared by [colunas_tipo]. *)
Definition text_in_numeric_column (colunas_tipo : list (string * string))
    (t : tuple) (coluna : string) : Prop :=
  exists (i : nat) (tipo : string),
    nth_error colunas_tipo i = Some (coluna, tipo)
    /\ MainDatabase.numeric tipo = true
    /\ nth_error t i = Some nao_informado.

(** ** Reading the trace *)

Definition is_insert (e : event) : bool :=
  match e with
  | EvInsert _ _ _ _ => true
  | EvRead _ => false
  end.

Definition is_insert_into (nome_tabela : string) (e : event) : bool :=
  match e with
  | EvInsert tabela _ _ _ => String.eqb tabela nome_tabela
  | EvRead _ => false
  end.

(** What [read_csv_file] returns as header and as data for a file. *)
Definition header_of (fs : string -> option (list (list string)))
    (filename : string) : option (list string) :=
  match fs filename with
  | Some (header :: _) => Some header
  | _ => None
  end.

Definition data_of (fs : string -> option (list (list string)))
    (filename : string) : option (list (list string)) :=
  match fs filename with
  | Some (_ :: data) => Some data
  | _ => None
  end.

Definition reads : trace :=
  [EvRead file_repres; EvRead file_fornclien; EvRead file_produtos;
   EvRead file_pedidos; EvRead file_pedidositem].

(** At least one of the five files gives no data. *)
Definition some_unreadable (fs : string -> option (list (list string))) : Prop :=
  data_of fs file_repres = None
  \/ data_of fs file_fornclien = None
  \/ data_of fs file_produtos = None
  \/ data_of fs file_pedidos = None
  \/ data_of fs file_pedidositem = None.

(** ** The specification's wording

    The three operations of the specification's sections 4.1 to 4.3 that
    the code is compared with, written after its sentences. *)

Module Spec.

(** "returns absent if input is empty/null.  Otherwise strips
    thousands-separator characters, parses as a decimal (fractional) number
    first, then truncates to an integer.  Returns absent on any parse
    failure" *)
Definition coerce_int (raw : string) : option Z :=
  if String.eqb raw "" then None
  else
    match Builtins.py_float (Builtins.remove_commas raw) with
    | Ok f =>
        match Builtins.py_int f with
        | Ok z => Some z
        | Raise _ => None
        end
    | Raise _ => None
    end.

(** "for each non-empty row, coerces the PK column with coerce_int;
    includes the value in the result set only if coercion succeeded AND
    the value is strictly positive" *)
Fixpoint build_valid_pk_set (rows : list (list string)) (pk_column_index : nat)
    : gset Z :=
  match rows with
  | [] => ∅
  | row :: rows' =>
      let rest := build_valid_pk_set rows' pk_column_index in
      match nth_error row pk_column_index with
      | Some raw =>
          match coerce_int raw with
          | Some z => if (0 <? z)%Z then {[ z ]} ∪ rest else rest
          | None => rest
          end
      | None => rest
      end
  end.

(** "If coercion fails, or the coerced value equals 0, returns default.
    Otherwise, if the coerced value is not a member of valid_pks, returns
    default.  Otherwise returns the coerced value." *)
Definition resolve_fk (raw : string) (valid_pks : gset Z) (default : Z) : Z :=
  match coerce_int raw with
  | None => default
  | Some z =>
      if (z =? 0)%Z then default
      else if bool_decide (z ∉ valid_pks) then default
      else z
  end.

End Spec.

(** ** Example inputs *)

(** A sink that accepts every insert. *)
Definition accept_all (h : trace) (nome_tabela : string) (colunas : list string)
    (dados : list tuple) (nome_banco : string) : result unit :=
  Ok tt.

(** Five files with a header line each; the Representative file has a
    blank line after it, for which [csv.reader] yields an empty row. *)
Definition blank_line_fs (filename : string) : option (list (list string)) :=
  if String.eqb filename file_repres
  then Some [["CODREPRES"; "TIPOPESS"; "NOMEFAN"; "COMISSAOBASE"]; []]
  else Some [["header"]].

(** The Product file is missing; the files read before it are in order. *)
Definition missing_produtos_fs (filename : string)
    : option (list (list string)) :=
  if String.eqb filename file_repres
  then Some [["CODREPRES"; "TIPOPESS"; "NOMEFAN"; "COMISSAOBASE"];
             ["10"; "PF"; "Acme"; "5.5"]]
  else if String.eqb filename file_produtos then None
  else Some [["header"]].

(** The Representative file of the end-to-end scenario, next to a
    Client/Supplier file with one row and three files with a header only. *)
Definition acme_fs (filename : string) : option (list (list string)) :=
  if String.eqb filename file_repres
  then Some [["CODREPRES"; "TIPOPESS"; "NOMEFAN"; "COMISSAOBASE"];
             ["10"; "PF"; "Acme"; "5.5"]]
  else if String.eqb filename file_fornclien
  then Some [["header"];
             ["7"; "1"; "10"; "Loja"; "Natal"; "RN"; ""; "1"; "0"; "abc"]]
  else Some [["header"]].

Definition fornclien_example : list string :=
  ["7"; "1"; "10"; "Loja"; "Natal"; "RN"; ""; "1"; "0"; "abc"].

Definition produtos_example : list string :=
  ["3"; "Cabo"; "7"; "1"; "18"; ""; "x"; "1"; "4"; "2"; "A"; "0.5"; ""].

(** * Definitions for the further properties *)

(** What the two coercions do with the text once the commas are gone. *)
Definition int_of_cleaned (cleaned_str : string) : option Z :=
  match Builtins.py_float cleaned_str with
  | Ok f =>
      match Builtins.py_int f with
      | Ok z => Some z
      | Raise _ => None
      end
  | Raise _ => None
  end.

Definition float_of_cleaned (cleaned_str : string) : option pyfloat :=
  match Builtins.py_float cleaned_str with
  | Ok f => Some f
  | Raise _ => None
  end.

(** The integer [z] is what the column [i] of some row of [data] coerces
    to. *)
Definition coerced_key (data : list (list string)) (i : nat) (z : Z) : Prop :=
  exists (row : list string) (s : string),
    In row data /\ nth_error row i = Some s
    /\ _safe_convert_to_int (Some s) = Ok (Some z).

Inductive cell_kind : Type :=
| KIntOrNone                  (* an integer or [None] *)
| KInt                        (* an integer *)
| KOneOrTwo                   (* the integer 1 or 2 *)
| KKey (V : gset Z)           (* 0 or a member of [V] *)
| KFloatOrNone                (* a float or [None] *)
| KFloat                      (* a float *)
| KNonzeroFloatOr (d : string) (* a float other than zero, or the text [d] *)
| KTextOrNone                 (* a non-empty text or [None] *)
| KText.                      (* a non-empty text *)

Definition has_kind (k : cell_kind) (c : pyval) : Prop :=
  match k, c with
  | KIntOrNone, (VNone | VInt _) => True
  | KInt, VInt _ => True
  | KOneOrTwo, VInt z => z = 1 \/ z = 2
  | KKey V, VInt z => z = 0 \/ z ∈ V
  | KFloatOrNone, (VNone | VFloat _) => True
  | KFloat, VFloat _ => True
  | KNonzeroFloatOr d, VFloat f => float_truthy f = true
  | KNonzeroFloatOr d, VStr s => s = d
  | KTextOrNone, VNone => True
  | (KTextOrNone | KText), VStr s => s <> ""
  | _, _ => False
  end.

Definition repres_kinds : list cell_kind :=
  [KIntOrNone; KTextOrNone; KTextOrNone; KFloatOrNone].

Definition fornclien_kinds (valid_repres_ids : gset Z) : list cell_kind :=
  [KIntOrNone; KIntOrNone; KKey valid_repres_ids; KText; KText; KText;
   KNonzeroFloatOr "Não Informado"; KIntOrNone; KIntOrNone;
   KNonzeroFloatOr "Não Informado"].

Definition produtos_kinds (valid_fornclien_ids : gset Z) : list cell_kind :=
  [KIntOrNone; KTextOrNone; KKey valid_fornclien_ids; KIntOrNone;
   KNonzeroFloatOr "Não Informado"; KNonzeroFloatOr "Não Informado";
   KNonzeroFloatOr "Não Informado"; KNonzeroFloatOr "Não Informado";
   KNonzeroFloatOr "Não Informado"; KIntOrNone; KText;
   KNonzeroFloatOr "Não Informado"; KNonzeroFloatOr "Não Informado"].

Definition pedidos_kinds (valid_fornclien_ids : gset Z) : list cell_kind :=
  [KInt; KTextOrNone; KTextOrNone; KKey valid_fornclien_ids; KTextOrNone;
   KOneOrTwo; KInt; KFloat; KInt; KFloat; KFloat; KFloat; KFloat; KFloat;
   KFloat].

Definition pedidositem_kinds (valid_pedidos_ids valid_produtos_ids : gset Z)
    : list cell_kind :=
  [KKey valid_pedidos_ids; KIntOrNone; KKey valid_produtos_ids; KFloatOrNone;
   KFloatOrNone; KText; KFloatOrNone; KFloatOrNone; KIntOrNone;
   KNonzeroFloatOr "5102"; KFloatOrNone].

(** The transformer [f] reads [n] columns: on a row with at least [n]
    columns it returns a tuple of [n] cells, on a shorter row it raises
    [IndexError]. *)
Definition reads_columns (f : list string -> result tuple) (n : nat) : Prop :=
  forall row : list string,
    ((n <= List.length row)%nat ->
     exists t, f row = Ok t /\ List.length t = n)
    /\ ((List.length row < n)%nat -> f row = Raise IndexError).

(** The computation returns or raises [IndexError]. *)
Definition index_only {A : Type} (m : result A) : Prop :=
  (exists a, m = Ok a) \/ m = Raise IndexError.

(** Every non-zero integer in the cell [fk] of a tuple of [child] is the
    first cell of some tuple of [parent]. *)
Definition references (child : list tuple) (fk : nat) (parent : list tuple)
    : Prop :=
  forall (t : tuple) (z : Z),
    In t child -> nth_error t fk = Some (VInt z) -> z <> 0 ->
    exists t', In t' parent /\ nth_error t' 0 = Some (VInt z).

(** One row for each of the five files, with keys that point to one
    another: representative 10, client 7 of representative 10, product 3 of
    supplier 7, order 55 of client 7, and an item of order 55 and product 3
    beside an item of an unknown order and product. *)
Definition pedidos_example : list string :=
  ["55"; "2024-01-31"; "10:00:00"; "7"; "S"; "1"; "2"; "1.5"; "30"; "100";
   "0"; "100"; "100"; "18"; "5"].

Definition pedidositem_examples : list (list string) :=
  [["55"; "1"; "3"; "2"; "50"; "UN"; "18"; "5"; "0"; "5102"; "0"];
   ["56"; "1"; "4"; "2"; "50"; ""; "18"; "5"; "0"; ""; "0"]].

(** The five inserts [load] means to make, in its order. *)
Definition planned_inserts (cleaned_repres cleaned_fornclien cleaned_produtos
    cleaned_pedidos cleaned_pedidositem : list tuple) (nome_banco : string)
    : list event :=
  [ EvInsert "Repres"
      ["CODREPRES"; "TIPOPESS"; "NOMEFAN"; "COMISSAOBASE"]
      cleaned_repres nome_banco;
    EvInsert "FornClien"
      ["CODCLIFOR"; "TIPOCF"; "CODREPRES"; "NOMEFAN"; "CIDADE"; "UF";
       "CODMUNICIPIO"; "TIPOPESSOA"; "COBRBANC"; "PRAZOPGTO"]
      cleaned_fornclien nome_banco;
    EvInsert "Produtos"
      ["CODPROD"; "NOMEPROD"; "CODFORNE"; "UNIDADE"; "ALIQICMS";
       "VALCUSTO"; "VALVENDA"; "QTDEMIN"; "QTDEESTQ"; "GRUPO";
       "CLASSEESTQ"; "COMISSAO"; "PESOBRUTO"]
      cleaned_produtos nome_banco;
    EvInsert "Pedidos"
      ["NUMPED"; "DATAPPED"; "HORAPPED"; "CODCLIEN"; "ES"; "FINALIDNFE";
       "SITUACAO"; "PESO"; "PRAZOPGTO"; "VALORPRODS"; "VALORDESC";
       "VALOR"; "VALBASEICMS"; "VALICMS"; "COMISSAO"]
      cleaned_pedidos nome_banco;
    EvInsert "PedidosItem"
      ["NUMPED"; "NUMITEM"; "CODPROD"; "QTDE"; "VALUNIT"; "UNID";
       "ALIQICMS"; "COMISSAO"; "STICMS"; "CFOP"; "REDUCBASEICMS"]
      cleaned_pedidositem nome_banco ].

(** What the sink answers to the event [e] after the trace [t]. *)
Definition answer
    (executemany :
      trace -> string -> list string -> list tuple -> string -> result unit)
    (t : trace) (e : event) : result unit :=
  match e with
  | EvInsert nome_tabela colunas dados nome_banco =>
      executemany t nome_tabela colunas dados nome_banco
  | EvRead _ => Ok tt
  end.

(** What an exception of the sink becomes in [insere_dados_tabela]. *)
Definition after_exception (x : exn) : result bool :=
  if exn_eqb x Sqlite3Error then Ok false else Raise x.

(** The inserts of [todo] made one after the other from the trace [t],
    up to the first one on which the sink raises. *)
Fixpoint run_inserts
    (executemany :
      trace -> string -> list string -> list tuple -> string -> result unit)
    (todo : list event) (t : trace) : trace * result bool :=
  match todo with
  | [] => (t, Ok true)
  | e :: todo' =>
      match answer executemany t e with
      | Ok _ => run_inserts executemany todo' (t ++ [e])%list
      | Raise x => ((t ++ [e])%list, after_exception x)
      end
  end.

(** The five files give the data [d1] to [d5], whose key sets on column 0
    are [V1] to [V4]. *)
Definition extracted (fs : string -> option (list (list string)))
    (d1 d2 d3 d4 d5 : list (list string)) (V1 V2 V3 V4 : gset Z) : Prop :=
  data_of fs file_repres = Some d1
  /\ data_of fs file_fornclien = Some d2
  /\ data_of fs file_produtos = Some d3
  /\ data_of fs file_pedidos = Some d4
  /\ data_of fs file_pedidositem = Some d5
  /\ get_valid_pk_set d1 0 = Ok V1
  /\ get_valid_pk_set d2 0 = Ok V2
  /\ get_valid_pk_set d3 0 = Ok V3
  /\ get_valid_pk_set d4 0 = Ok V4.

(** A sink that refuses the inserts into one table with [x] and accepts
    the others. *)
Definition refuse (tabela : string) (x : exn) (h : trace)
    (nome_tabela : string) (colunas : list string) (dados : list tuple)
    (nome_banco : string) : result unit :=
  if String.eqb nome_tabela tabela then Raise x else Ok tt.

(** The table an insert goes to and the file its rows come from. *)
Definition table_files : list (string * string) :=
  [("Repres", file_repres); ("FornClien", file_fornclien);
   ("Produtos", file_produtos); ("Pedidos", file_pedidos);
   ("PedidosItem", file_pedidositem)].

(** The table an event inserts into. *)
Definition table_of (e : event) : option string :=
  match e with
  | EvInsert nome_tabela _ _ _ => Some nome_tabela
  | EvRead _ => None
  end.

(** ** Creating the database

    The functions that build the schema talk to SQLite through a
    connection used as a context manager.  What they ask for is recorded
    as events: opening a connection, executing a statement, an explicit
    commit, and leaving the [with] block, which commits when the block
    ended normally and rolls back when it raised.  The driver answers
    each of them by returning or by raising. *)

Inductive db_event : Type :=
| DbConnect (nome_banco : string)
| DbExecute (nome_banco : string) (sql : string)
| DbCommit (nome_banco : string)
| DbExit (nome_banco : string) (committed : bool).

Definition db_trace : Type := list db_event.

Definition dbio (A : Type) : Type := db_trace -> db_trace * result A.

#[global] Instance dbio_ret : MRet dbio := fun A a h => (h, Ok a).

#[global] Instance dbio_bind : MBind dbio := fun A B k m h =>
  match m h with
  | (h', Ok a) => k a h'
  | (h', Raise e) => (h', Raise e)
  end.

(** [s.endswith(suffix)] *)
Definition endswith (s suffix : string) : bool :=
  let n := String.length s in
  let m := String.length suffix in
  (m <=? n)%nat && String.eqb (String.substring (n - m) m s) suffix.

(** [s.lower()], on ASCII letters *)
Fixpoint lower (s : string) : string :=
  match s with
  | EmptyString => EmptyString
  | String c s' => String (Builtins.to_lower c) (lower s')
  end.

Definition newline : string := String (ascii_of_nat 10) EmptyString.

Section Database.

(** The driver: its answer to an event after the events so far. *)
Variable sqlite : db_trace -> db_event -> result unit.

Definition perform (e : db_event) : dbio unit :=
  fun h => ((h ++ [e])%list, sqlite h e).

(** [try: body except sqlite3.Error: return False] *)
Definition except_sqlite3 (body : dbio bool) : dbio bool :=
  fun h =>
    match body h with
    | (h', Ok b) => (h', Ok b)
    | (h', Raise x) => (h', after_exception x)
    end.

(** [with sqlite3.connect(nome_banco) as conn: body] *)
Definition with_connection {A : Type} (nome_banco : string) (body : dbio A)
    : dbio A :=
  fun h =>
    match perform (DbConnect nome_banco) h with
    | (h1, Raise x) => (h1, Raise x)
    | (h1, Ok _) =>
        match body h1 with
        | (h2, Ok a) =>
            match perform (DbExit nome_banco true) h2 with
            | (h3, Ok _) => (h3, Ok a)
            | (h3, Raise y) => (h3, Raise y)
            end
        | (h2, Raise x) =>
            match perform (DbExit nome_banco false) h2 with
            | (h3, Ok _) => (h3, Raise x)
            | (h3, Raise y) => (h3, Raise y)
            end
        end
    end.

Definition cria_banco_de_dados (nome_banco : string) : dbio bool :=
  except_sqlite3
    (let nome_banco :=
       if negb (endswith nome_banco ".db") then nome_banco ++ ".db"
       else nome_banco in
     _ ← with_connection nome_banco (mret tt);
     mret true).

Definition sql_drop (nome_tabela : string) : string :=
  "DROP TABLE IF EXISTS " ++ nome_tabela.

Definition sql_create (colunas_tipo : list (string * string))
    (nome_tabela : string) : string :=
  let colunas_definicoes :=
    map (fun '(coluna, tipo) => coluna ++ " " ++ tipo) colunas_tipo in
  let colunas_sql := String.concat ", " colunas_definicoes in
  "CREATE TABLE " ++ nome_tabela ++ " (" ++ colunas_sql ++ ")".

Definition cria_tabela_dict (colunas_tipo : list (string * string))
    (nome_tabela nome_banco : string) : dbio bool :=
  except_sqlite3
    (with_connection nome_banco
       (_ ← perform (DbExecute nome_banco (sql_drop nome_tabela));
        _ ← perform (DbExecute nome_banco (sql_create colunas_tipo nome_tabela));
        _ ← perform (DbCommit nome_banco);
        mret true)).

Definition sql_create_index (nome_tabela : string) (colunas_pk : list string)
    : string :=
  let nome_indice := "pk_" ++ lower nome_tabela in
  let colunas_sql := String.concat ", " colunas_pk in
  newline ++ "            CREATE UNIQUE INDEX IF NOT EXISTS " ++ nome_indice
  ++ " " ++ newline ++ "            ON " ++ nome_tabela ++ "(" ++ colunas_sql
  ++ ")" ++ newline ++ "            ".

Definition cria_pk_composta (nome_tabela : string) (colunas_pk : list string)
    (nome_banco : string) : dbio bool :=
  except_sqlite3
    (if (List.length colunas_pk <? 2)%nat then mret false
     else
       with_connection nome_banco
         (_ ← perform
                (DbExecute nome_banco (sql_create_index nome_tabela colunas_pk));
          _ ← perform (DbCommit nome_banco);
          mret true)).

Definition colunas_repres : list (string * string) :=
  [ ("CODREPRES", "INTEGER PRIMARY KEY");
    ("TIPOPESS", "TEXT(2) NOT NULL CHECK(LENGTH(TIPOPESS) <= 2)");
    ("NOMEFAN", "TEXT(20) NOT NULL CHECK(LENGTH(NOMEFAN) <= 20)");
    ("COMISSAOBASE", "REAL NOT NULL DEFAULT 3") ].

Definition colunas_pedidos : list (string * string) :=
  [ ("NUMPED", "INTEGER PRIMARY KEY");
    ("DATAPPED", "TEXT(10) NOT NULL CHECK(LENGTH(DATAPPED) <= 10)");
    ("HORAPPED", "TEXT(8) NOT NULL CHECK(LENGTH(HORAPPED) <= 8)");
    ("CODCLIEN", "INTEGER NOT NULL REFERENCES FornClien(CODCLIFOR)");
    ("ES", "TEXT(1) NOT NULL CHECK(ES IN ('S', 'E')) DEFAULT 'S'");
    ("FINALIDNFE", "INTEGER NOT NULL DEFAULT 1 CHECK(FINALIDNFE IN (1, 2))");
    ("SITUACAO", "INTEGER NOT NULL DEFAULT 2");
    ("PESO", "REAL NOT NULL");
    ("PRAZOPGTO", "INTEGER NOT NULL DEFAULT 0");
    ("VALORPRODS", "REAL NOT NULL");
    ("VALORDESC", "REAL NOT NULL DEFAULT 0");
    ("VALOR", "REAL NOT NULL");
    ("VALBASEICMS", "REAL NOT NULL DEFAULT 0");
    ("VALICMS", "REAL NOT NULL DEFAULT 0");
    ("COMISSAO", "REAL NOT NULL DEFAULT 0") ].

Definition colunas_pedidositem : list (string * string) :=
  [ ("NUMPED", "INTEGER NOT NULL REFERENCES Pedidos(NUMPED)");
    ("NUMITEM", "INTEGER NOT NULL");
    ("CODPROD", "INTEGER NOT NULL REFERENCES Produtos(CODPROD)");
    ("QTDE", "REAL NOT NULL");
    ("VALUNIT", "REAL NOT NULL");
    ("UNID", "TEXT(2) NOT NULL CHECK(LENGTH(UNID) <= 2)");
    ("ALIQICMS", "REAL NOT NULL DEFAULT 0");
    ("COMISSAO", "REAL NOT NULL DEFAULT 0");
    ("STICMS", "INTEGER NOT NULL");
    ("CFOP", "INTEGER NOT NULL DEFAULT 5102");
    ("REDUCBASEICMS", "REAL NOT NULL DEFAULT 0") ].

Definition main_database (nome_banco : string) : dbio bool :=
  ok ← cria_banco_de_dados nome_banco;
  if negb ok then mret false else
  ok ← cria_tabela_dict colunas_repres "Repres" nome_banco;
  if negb ok then mret false else
  ok ← cria_tabela_dict MainDatabase.colunas_fornclien "FornClien" nome_banco;
  if negb ok then mret false else
  ok ← cria_tabela_dict MainDatabase.colunas_produtos "Produtos" nome_banco;
  if negb ok then mret false else
  ok ← cria_tabela_dict colunas_pedidos "Pedidos" nome_banco;
  if negb ok then mret false else
  ok ← cria_tabela_dict colunas_pedidositem "PedidosItem" nome_banco;
  if negb ok then mret false else
  ok ← cria_pk_composta "PedidosItem" ["NUMPED"; "NUMITEM"] nome_banco;
  if negb ok then mret false else
  mret true.

End Database.

(** The events of one table's creation. *)
Definition table_script (colunas_tipo : list (string * string))
    (nome_tabela nome_banco : string) : db_trace :=
  [ DbConnect nome_banco;
    DbExecute nome_banco (sql_drop nome_tabela);
    DbExecute nome_banco (sql_create colunas_tipo nome_tabela);
    DbCommit nome_banco;
    DbExit nome_banco true ].

(** The name [cria_banco_de_dados] connects to. *)
Definition db_file (nome_banco : string) : string :=
  if negb (endswith nome_banco ".db") then nome_banco ++ ".db" else nome_banco.

(** The events of a complete [main_database]. *)
Definition full_script (nome_banco : string) : db_trace :=
  ([ DbConnect (db_file nome_banco); DbExit (db_file nome_banco) true ]
   ++ table_script colunas_repres "Repres" nome_banco
   ++ table_script MainDatabase.colunas_fornclien "FornClien" nome_banco
   ++ table_script MainDatabase.colunas_produtos "Produtos" nome_banco
   ++ table_script colunas_pedidos "Pedidos" nome_banco
   ++ table_script colunas_pedidositem "PedidosItem" nome_banco
   ++ [ DbConnect nome_banco;
        DbExecute nome_banco
          (sql_create_index "PedidosItem" ["NUMPED"; "NUMITEM"]);
        DbCommit nome_banco;
        DbExit nome_banco true ])%list.

(** The database an event is about. *)
Definition db_of (e : db_event) : string :=
  match e with
  | DbConnect b | DbExecute b _ | DbCommit b | DbExit b _ => b
  end.

(** A driver that accepts everything. *)
Definition sqlite_accepts (h : db_trace) (e : db_event) : result unit := Ok tt.

(** A driver that refuses, with [sqlite3.Error], to create one table. *)
Definition sqlite_refuses_create (nome_tabela : string) (h : db_trace)
    (e : db_event) : result unit :=
  match e with
  | DbExecute _ sql =>
      if String.prefix ("CREATE TABLE " ++ nome_tabela) sql
      then Raise Sqlite3Error else Ok tt
  | _ => Ok tt
  end.

(** The driver raised [sqlite3.Error] on some event of the trace [h] that
    comes after the events of [h0]. *)
Definition refused_after (sqlite : db_trace -> db_event -> result unit)
    (h0 h : db_trace) : Prop :=
  exists h1 e h2,
    h = (h0 ++ h1 ++ e :: h2)%list
    /\ sqlite (h0 ++ h1)%list e = Raise Sqlite3Error.

(** The declared type forbids NULL. *)
Definition not_null (tipo : string) : bool :=
  match String.index 0 "NOT NULL" tipo with
  | Some _ => true
  | None => false
  end.

(** * Properties *)

(** ** The builtins raise only what the coercions catch *)

Lemma py_float_raises_only_ValueError (s : string) :
  (exists f, Builtins.py_float s = Ok f) \/ Builtins.py_float s = Raise ValueError.
Proof.
  unfold Builtins.py_float.
  destruct (Builtins.take_sign _) as [sg body].
  destruct (Builtins.special sg body) as [f|]; [left; eauto|].
  destruct (Builtins.floatnumber sg body) as [f|]; [left; eauto|now right].
Qed.

Lemma py_int_raises (f : pyfloat) :
  (exists z, Builtins.py_int f = Ok z)
  \/ Builtins.py_int f = Raise OverflowError
  \/ Builtins.py_int f = Raise ValueError.
Proof. destruct f; simpl; eauto. Qed.

Lemma safe_int_cases (v : option string) :
  (exists z, _safe_convert_to_int v = Ok (Some z)) \/ _safe_convert_to_int v = Ok None.
Proof.
  destruct v as [[|c s]|]; [now right| |now right].
  unfold _safe_convert_to_int.
  destruct (py_float_raises_only_ValueError (Builtins.remove_commas (String c s)))
    as [[f ->]| ->]; [|now right].
  destruct (py_int_raises f) as [[z Hz]|[Hz | Hz]]; cbn; rewrite Hz; cbn; eauto.
Qed.

Lemma safe_float_cases (v : option string) :
  (exists f, _safe_convert_to_float v = Ok (Some f))
  \/ _safe_convert_to_float v = Ok None.
Proof.
  destruct v as [[|c s]|]; [now right| |now right].
  unfold _safe_convert_to_float.
  destruct (py_float_raises_only_ValueError (Builtins.remove_commas (String c s)))
    as [[f ->]| ->]; cbn; eauto.
Qed.

Lemma safe_int_total (v : option string) : exists r, _safe_convert_to_int v = Ok r.
Proof. destruct (safe_int_cases v) as [[z ->]| ->]; eauto. Qed.

Lemma safe_float_total (v : option string) :
  exists r, _safe_convert_to_float v = Ok r.
Proof. destruct (safe_float_cases v) as [[z ->]| ->]; eauto. Qed.

(** ** Foreign-key resolvers *)

Lemma clean_foreign_key_spec (s : string) (V : gset Z) (d : Z) :
  exists z, clean_foreign_key s V d = Ok (Some z) /\ (z = 0 \/ z ∈ V).
Proof.
  unfold clean_foreign_key.
  destruct (safe_int_total (Some s)) as [[z|] ->]; simpl; [|eauto].
  destruct (z =? 0)%Z; [eauto|].
  case_bool_decide as Hin; [eauto|].
  exists z. split; [done|]. right.
  destruct (decide (z ∈ V)); [done|contradiction].
Qed.

Lemma safe_int_is_coerce_int (s : string) :
  _safe_convert_to_int (Some s) = Ok (Spec.coerce_int s).
Proof.
  unfold Spec.coerce_int. destruct s as [|c s]; [reflexivity|].
  unfold _safe_convert_to_int. cbn [String.eqb].
  destruct (py_float_raises_only_ValueError
              (Builtins.remove_commas (String c s))) as [[f ->]| ->];
    [|reflexivity].
  destruct (py_int_raises f) as [[z Hz]|[Hz|Hz]]; cbn; rewrite Hz; reflexivity.
Qed.

(** The sibling resolver is the resolver of the specification, at every
    default. *)
Lemma tratamento_is_resolve_fk (s : string) (V : gset Z) (d : Z) :
  _tratamento_fk_com_default s V d = Ok (Spec.resolve_fk s V d).
Proof.
  unfold _tratamento_fk_com_default, Spec.resolve_fk.
  rewrite safe_int_is_coerce_int. cbn.
  destruct (Spec.coerce_int s) as [z|]; [|reflexivity].
  destruct (z =? 0)%Z; [reflexivity|].
  case_bool_decide; reflexivity.
Qed.

(** [clean_foreign_key] is that resolver at the default [0] only. *)
Lemma clean_foreign_key_is_resolve_fk_0 (s : string) (V : gset Z) (d : Z) :
  clean_foreign_key s V d = Ok (Some (Spec.resolve_fk s V 0)).
Proof.
  unfold clean_foreign_key, Spec.resolve_fk.
  rewrite safe_int_is_coerce_int. cbn.
  destruct (Spec.coerce_int s) as [z|]; [|reflexivity].
  destruct (z =? 0)%Z; [reflexivity|].
  case_bool_decide; reflexivity.
Qed.

(** C1, at the input where the code and the claim part.  The caller asks
    for the default [7]; the text ["abc"] does not coerce and [5] is not a
    valid key, so the resolver of the specification gives [7], and
    [clean_foreign_key] returns [0].  Its sibling
    [_tratamento_fk_com_default] returns the [7] it was given. *)
Theorem clean_foreign_key_drops_default :
  Spec.resolve_fk "abc" {[ 1; 2; 3 ]} 7 = 7
  /\ Spec.resolve_fk "5" {[ 1; 2; 3 ]} 7 = 7
  /\ clean_foreign_key "abc" {[ 1; 2; 3 ]} 7 = Ok (Some 0)
  /\ clean_foreign_key "5" {[ 1; 2; 3 ]} 7 = Ok (Some 0)
  /\ _tratamento_fk_com_default "abc" {[ 1; 2; 3 ]} 7 = Ok 7
  /\ _tratamento_fk_com_default "5" {[ 1; 2; 3 ]} 7 = Ok 7.
Proof. repeat split; vm_compute; reflexivity. Qed.

(** C2, at the input where the code and the claim part.  The only row
    holds the text ["-5"]; it coerces to [-5], which [if pk_int:] lets
    through, so the set that comes back contains a negative number, where
    the builder of the specification gives the empty set. *)
Theorem get_valid_pk_set_keeps_negative :
  Spec.build_valid_pk_set [["-5"]] 0 = ∅
  /\ exists valid_ids : gset Z,
      get_valid_pk_set [["-5"]] 0 = Ok valid_ids /\ (-5) ∈ valid_ids.
Proof.
  split; [vm_compute; reflexivity|].
  exists {[ -5 ]}. split; [vm_compute; reflexivity|].
  now apply elem_of_singleton.
Qed.

(** C3: with the default left at [0], [clean_foreign_key] returns [0] or a
    member of the valid set, whatever the text; and the four examples of
    the specification evaluate as stated. *)
Theorem clean_foreign_key_zero_or_member :
  (forall (s : string) (V : gset Z),
      exists z, clean_foreign_key s V 0 = Ok (Some z) /\ (z = 0 \/ z ∈ V))
  /\ clean_foreign_key "0" {[ 1; 2; 3 ]} 0 = Ok (Some 0)
  /\ clean_foreign_key "5" {[ 1; 2; 3 ]} 0 = Ok (Some 0)
  /\ clean_foreign_key "2" {[ 1; 2; 3 ]} 0 = Ok (Some 2)
  /\ clean_foreign_key "" {[ 1; 2; 3 ]} 0 = Ok (Some 0).
Proof.
  split; [intros s V; apply clean_foreign_key_spec|].
  repeat split; vm_compute; reflexivity.
Qed.

(** C5: the examples of the specification for the two scalar coercions.
    The float that ["1,234.50"] gives is exactly 2469/2. *)
Theorem coercion_examples :
  _safe_convert_to_int (Some "553,465") = Ok (Some 553465)
  /\ _safe_convert_to_int (Some "4.0") = Ok (Some 4)
  /\ _safe_convert_to_int (Some "abc") = Ok None
  /\ _safe_convert_to_int (Some "") = Ok None
  /\ (exists f, _safe_convert_to_float (Some "1,234.50") = Ok (Some f)
                /\ Builtins.float_exactly f 2469 2)
  /\ _safe_convert_to_float None = Ok None
  /\ _safe_convert_to_float (Some "") = Ok None.
Proof.
  repeat split; try (vm_compute; reflexivity).
  exists (S754_finite false 5429388417957888 (-42)).
  split; vm_compute; reflexivity.
Qed.

(** C6: on [None] and on every text, each scalar coercion returns: a typed
    value or the absent marker, never an exception.  Both take their
    argument only and give their result only; too large a number is one of
    the texts, as ["1e400"] shows. *)
Theorem coercions_total :
  (forall v : option string,
      (exists z, _safe_convert_to_int v = Ok (Some z))
      \/ _safe_convert_to_int v = Ok None)
  /\ (forall v : option string,
      (exists f, _safe_convert_to_float v = Ok (Some f))
      \/ _safe_convert_to_float v = Ok None)
  /\ _safe_convert_to_int (Some "1e400") = Ok None
  /\ _safe_convert_to_float (Some "1e400") = Ok (Some (S754_infinity false)).
Proof.
  split; [exact safe_int_cases|].
  split; [exact safe_float_cases|].
  split; vm_compute; reflexivity.
Qed.

(** C9: [clean_foreign_key] agrees with [_tratamento_fk_com_default] at the
    default [0], whatever default it is called with; its result does not
    depend on that argument and is never [None]. *)
Theorem clean_foreign_key_is_tratamento_at_0 (s : string) (V : gset Z) (d : Z) :
  clean_foreign_key s V d = (z ← _tratamento_fk_com_default s V 0; Ok (Some z))
  /\ clean_foreign_key s V d = clean_foreign_key s V 0
  /\ exists z, clean_foreign_key s V d = Ok (Some z).
Proof.
  split; [|split].
  - unfold clean_foreign_key, _tratamento_fk_com_default.
    destruct (safe_int_total (Some s)) as [[z|] ->]; cbn; [|reflexivity].
    destruct (z =? 0)%Z; [reflexivity|].
    case_bool_decide; reflexivity.
  - reflexivity.
  - destruct (clean_foreign_key_spec s V d) as [z [Hz _]]. eauto.
Qed.

(** ** Row transformers *)

Lemma returns_of_raises {A : Type} (m : result A) :
  raises m = false -> exists a, m = Ok a.
Proof. destruct m; [eauto|discriminate]. Qed.

Lemma raises_bind {A B : Type} (m : result A) (k : A -> result B) :
  raises m = false -> (forall a, raises (k a) = false) ->
  raises (m ≫= k) = false.
Proof. destruct m as [a|e]; [intros _ Hk; apply Hk|discriminate]. Qed.

Lemma getitem_ok (row : list string) (i : nat) :
  (i < List.length row)%nat -> raises (getitem row i) = false.
Proof.
  intros Hi. unfold getitem.
  destruct (nth_error row i) eqn:E; [reflexivity|].
  apply nth_error_None in E. lia.
Qed.

Lemma safe_int_ok (v : option string) : raises (_safe_convert_to_int v) = false.
Proof. destruct (safe_int_total v) as [r ->]. reflexivity. Qed.

Lemma safe_float_ok (v : option string) :
  raises (_safe_convert_to_float v) = false.
Proof. destruct (safe_float_total v) as [r ->]. reflexivity. Qed.

Lemma clean_foreign_key_ok (s : string) (V : gset Z) (d : Z) :
  raises (clean_foreign_key s V d) = false.
Proof. destruct (clean_foreign_key_spec s V d) as [z [-> _]]. reflexivity. Qed.

Lemma int_at_ok (row : list string) (i : nat) :
  (i < List.length row)%nat -> raises (int_at row i) = false.
Proof.
  intros Hi. unfold int_at.
  apply raises_bind; [now apply getitem_ok|intros s].
  apply raises_bind; [apply safe_int_ok|reflexivity].
Qed.

Lemma float_at_ok (row : list string) (i : nat) :
  (i < List.length row)%nat -> raises (float_at row i) = false.
Proof.
  intros Hi. unfold float_at.
  apply raises_bind; [now apply getitem_ok|intros s].
  apply raises_bind; [apply safe_float_ok|reflexivity].
Qed.

Lemma str_at_ok (row : list string) (i : nat) :
  (i < List.length row)%nat -> raises (str_at row i) = false.
Proof.
  intros Hi. unfold str_at.
  apply raises_bind; [now apply getitem_ok|reflexivity].
Qed.

Lemma fk_at_ok (row : list string) (i : nat) (V : gset Z) :
  (i < List.length row)%nat -> raises (fk_at row i V) = false.
Proof.
  intros Hi. unfold fk_at.
  apply raises_bind; [now apply getitem_ok|intros s].
  apply raises_bind; [apply clean_foreign_key_ok|reflexivity].
Qed.

Lemma or_lit_ok (e : result pyval) (d : pyval) :
  raises e = false -> raises (or_lit e d) = false.
Proof. intros He. unfold or_lit. apply raises_bind; [done|reflexivity]. Qed.

Lemma finalidnfe_at_ok (row : list string) (i : nat) :
  (i < List.length row)%nat -> raises (finalidnfe_at row i) = false.
Proof.
  intros Hi. unfold finalidnfe_at.
  apply raises_bind; [now apply int_at_ok|intros c].
  destruct (in_1_2 c); [now apply int_at_ok|reflexivity].
Qed.

(** One cell of an output tuple, on a row that is long enough. *)
Ltac cell :=
  first
    [ apply or_lit_ok; cell
    | apply int_at_ok; lia
    | apply float_at_ok; lia
    | apply str_at_ok; lia
    | apply fk_at_ok; lia
    | apply finalidnfe_at_ok; lia ].

Ltac cells := repeat (apply raises_bind; [cell|intros ?]); reflexivity.

Lemma repres_row_ok (row : list string) :
  (4 <= List.length row)%nat -> raises (repres_row row) = false.
Proof. intros H. unfold repres_row. cells. Qed.

Lemma fornclien_row_ok (V : gset Z) (row : list string) :
  (10 <= List.length row)%nat -> raises (fornclien_row V row) = false.
Proof. intros H. unfold fornclien_row. cells. Qed.

Lemma produtos_row_ok (V : gset Z) (row : list string) :
  (13 <= List.length row)%nat -> raises (produtos_row V row) = false.
Proof. intros H. unfold produtos_row. cells. Qed.

Lemma pedidos_row_ok (V : gset Z) (row : list string) :
  (15 <= List.length row)%nat -> raises (pedidos_row V row) = false.
Proof. intros H. unfold pedidos_row. cells. Qed.

Lemma pedidositem_row_ok (V W : gset Z) (row : list string) :
  (11 <= List.length row)%nat -> raises (pedidositem_row V W row) = false.
Proof. intros H. unfold pedidositem_row. cells. Qed.

Lemma for_rows_ok (f : list string -> result tuple) (n : nat)
    (data : list (list string)) :
  (forall row, (n <= List.length row)%nat -> raises (f row) = false) ->
  Forall (fun row => (n <= List.length row)%nat) data ->
  raises (for_rows f data) = false.
Proof.
  intros Hf Hdata. induction Hdata as [|row data Hrow _ IH]; [reflexivity|].
  cbn [for_rows].
  apply raises_bind; [now apply Hf|intros t].
  apply raises_bind; [exact IH|reflexivity].
Qed.

Lemma if_data_ok (f : list string -> result tuple) (n : nat)
    (data : list (list string)) :
  (forall row, (n <= List.length row)%nat -> raises (f row) = false) ->
  Forall (fun row => (n <= List.length row)%nat) data ->
  raises (if_data f data) = false.
Proof.
  intros Hf Hdata. destruct data; [reflexivity|].
  now apply (for_rows_ok f n).
Qed.

(** ** The primary-key set builder on column 0 *)

Lemma pk_loop_0_ok (data : list (list string)) :
  forall valid_ids, raises (pk_loop data 0 valid_ids) = false.
Proof.
  induction data as [|row data IH]; intros valid_ids; [reflexivity|].
  destruct row as [|c row]; cbn [pk_loop]; [apply IH|].
  apply raises_bind; [reflexivity|intros s].
  apply raises_bind; [apply safe_int_ok|intros pk_int].
  apply IH.
Qed.

Lemma get_valid_pk_set_0_ok (data : list (list string)) :
  raises (get_valid_pk_set data 0) = false.
Proof. apply pk_loop_0_ok. Qed.

Lemma pk_loop_excludes_0 (data : list (list string)) (i : nat) :
  forall valid_ids valid_ids',
    0 ∉ valid_ids -> pk_loop data i valid_ids = Ok valid_ids' -> 0 ∉ valid_ids'.
Proof.
  induction data as [|row data IH]; intros S S' H0 Hrun.
  - cbn in Hrun. now inversion Hrun; subst.
  - destruct row as [|c row]; cbn [pk_loop] in Hrun; [now apply (IH S)|].
    destruct (getitem (c :: row) i) as [s|e]; [|discriminate].
    cbn [mbind result_bind] in Hrun.
    destruct (_safe_convert_to_int (Some s)) as [[z|]|e];
      cbn [mbind result_bind] in Hrun; [ |now apply (IH S)|discriminate].
    apply IH in Hrun; [exact Hrun|].
    unfold truthy. destruct (Z.eqb_spec z 0) as [->|Hz]; cbn [negb]; [done|].
    intros [Hin|Hin]%elem_of_union; [|done].
    apply elem_of_singleton in Hin. lia.
Qed.

(** The half of C2 that the code keeps: [0] is never a valid key. *)
Lemma get_valid_pk_set_excludes_0 (data : list (list string)) (i : nat)
    (valid_ids : gset Z) :
  get_valid_pk_set data i = Ok valid_ids -> 0 ∉ valid_ids.
Proof. apply pk_loop_excludes_0. set_solver. Qed.

Lemma pk_loop_positive_part (data : list (list string)) (i : nat) :
  forall valid_ids valid_ids',
    pk_loop data i valid_ids = Ok valid_ids' ->
    forall z : Z,
      z ∈ valid_ids' /\ 0 < z
      <-> (z ∈ valid_ids /\ 0 < z) \/ z ∈ Spec.build_valid_pk_set data i.
Proof.
  induction data as [|row data IH]; intros S S' Hrun z.
  - cbn in Hrun. inversion Hrun; subst. cbn.
    split; [tauto|intros [H|H]; [exact H|]].
    now apply not_elem_of_empty in H.
  - destruct row as [|c row]; cbn [pk_loop] in Hrun.
    { rewrite (IH S S' Hrun z). cbn. destruct i; reflexivity. }
    unfold getitem in Hrun. cbn [Spec.build_valid_pk_set].
    destruct (nth_error (c :: row) i) as [s|]; [|discriminate].
    cbn [mbind result_bind] in Hrun.
    rewrite safe_int_is_coerce_int in Hrun. cbn [mbind result_bind] in Hrun.
    destruct (Spec.coerce_int s) as [k|]; [|exact (IH S S' Hrun z)].
    rewrite (IH _ S' Hrun z). unfold truthy.
    destruct (Z.eqb_spec k 0) as [->|Hk]; cbn [negb]; [reflexivity|].
    destruct (Z.ltb_spec 0 k) as [Hpos|Hneg];
      rewrite ?elem_of_union, ?elem_of_singleton.
    + split; [intros [[[->|H] Hz]|H]|intros [H|[->|H]]]; tauto.
    + split; [intros [[[->|H] Hz]|H]|intros [H|H]]; try tauto. lia.
Qed.

(** What the code keeps of C2: the strictly positive members of the set it
    returns are the set of the specification. *)
Lemma get_valid_pk_set_positive_part (data : list (list string)) (i : nat)
    (valid_ids : gset Z) :
  get_valid_pk_set data i = Ok valid_ids ->
  forall z : Z,
    z ∈ Spec.build_valid_pk_set data i <-> z ∈ valid_ids /\ 0 < z.
Proof.
  intros Hrun z. rewrite (pk_loop_positive_part data i ∅ valid_ids Hrun z).
  split; [tauto|intros [[H _]|H]; [|exact H]].
  now apply not_elem_of_empty in H.
Qed.

(** ** Running the orchestrator *)

Section Runs.

Variable fs : string -> option (list (list string)).

Variable executemany :
  trace -> string -> list string -> list tuple -> string -> result unit.

Lemma etl_bind_ok {A B : Type} (m : etl A) (k : A -> etl B) (t t' : trace)
    (a : A) :
  m t = (t', Ok a) -> (m ≫= k) t = k a t'.
Proof. intros H. unfold mbind, etl_bind. now rewrite H. Qed.

Lemma etl_bind_raise {A B : Type} (m : etl A) (k : A -> etl B) (t t' : trace)
    (e : exn) :
  m t = (t', Raise e) -> (m ≫= k) t = (t', Raise e).
Proof. intros H. unfold mbind, etl_bind. now rewrite H. Qed.

Lemma lift_bind_ok {A B : Type} (r : result A) (k : A -> etl B) (t : trace)
    (a : A) :
  r = Ok a -> (lift r ≫= k) t = k a t.
Proof. intros ->. reflexivity. Qed.

Lemma lift_bind_raise {A B : Type} (r : result A) (k : A -> etl B) (t : trace)
    (e : exn) :
  r = Raise e -> (lift r ≫= k) t = (t, Raise e).
Proof. intros ->. reflexivity. Qed.

Lemma read_csv_file_run (filename : string) (t : trace) :
  read_csv_file fs filename t
  = ((t ++ [EvRead filename])%list,
     Ok (header_of fs filename, data_of fs filename)).
Proof.
  unfold read_csv_file, header_of, data_of.
  destruct (fs filename) as [[|h d]|]; reflexivity.
Qed.

Lemma read_bind_run {B : Type} (filename : string)
    (k : option (list string) * option (list (list string)) -> etl B)
    (t : trace) :
  (read_csv_file fs filename ≫= k) t
  = k (header_of fs filename, data_of fs filename)
      (t ++ [EvRead filename])%list.
Proof. apply etl_bind_ok, read_csv_file_run. Qed.

Lemma insere_dados_tabela_run (nome_tabela : string) (colunas : list string)
    (dados : list tuple) (nome_banco : string) (t : trace) :
  exists r,
    insere_dados_tabela executemany nome_tabela colunas dados nome_banco t
    = ((t ++ [EvInsert nome_tabela colunas dados nome_banco])%list, r).
Proof.
  unfold insere_dados_tabela, history, log, lift. cbn. eauto.
Qed.

(** The inserts of [load]: the first one is into Repres and is always
    made; none of those that follow is into Repres. *)
Lemma load_run (c1 c2 c3 c4 c5 : list tuple) (nome_banco : string) (t : trace) :
  exists rest r,
    load executemany c1 c2 c3 c4 c5 nome_banco t
    = ((t ++ EvInsert "Repres"
               ["CODREPRES"; "TIPOPESS"; "NOMEFAN"; "COMISSAOBASE"]
               c1 nome_banco :: rest)%list, r)
    /\ Forall (fun e => is_insert_into "Repres" e = false) rest.
Proof.
  unfold load.
  repeat
    (match goal with
     | |- context [insere_dados_tabela _ ?tab ?cols ?rows ?db ≫= _] =>
         match goal with
         | |- exists _ _, _ ?t' = _ /\ _ =>
             let r := fresh "r" in
             let H := fresh "H" in
             destruct (insere_dados_tabela_run tab cols rows db t') as [r H];
             destruct r as [[|]|?];
             [ rewrite (etl_bind_ok _ _ _ _ _ H); cbn [negb]
             | rewrite (etl_bind_ok _ _ _ _ _ H); cbn [negb]
             | rewrite (etl_bind_raise _ _ _ _ _ H) ]
         end
     end;
     try (eexists _, _; split;
          [ rewrite <- ?app_assoc; reflexivity
          | repeat constructor ])).
Qed.

End Runs.

Section Orchestrator.

Variable fs : string -> option (list (list string)).

Variable executemany :
  trace -> string -> list string -> list tuple -> string -> result unit.

Variable nome_banco : string.

(** One extraction step of [main_etl]: the read, then either the early
    [return False] or the key set of the data just read. *)
Ltac extraction_step H :=
  rewrite read_bind_run; cbn beta iota; rewrite H;
  try match goal with
      | |- context [lift (get_valid_pk_set ?d 0) ≫= _] =>
          let V := fresh "V" in
          let HV := fresh "HV" in
          destruct (returns_of_raises _ (get_valid_pk_set_0_ok d)) as [V HV];
          rewrite (lift_bind_ok _ _ _ _ HV)
      end.

(** With five readable files, [main_etl] is the transformation followed by
    the load, started after exactly the five reads. *)
Lemma main_etl_all_read (d1 d2 d3 d4 d5 : list (list string)) :
  data_of fs file_repres = Some d1 ->
  data_of fs file_fornclien = Some d2 ->
  data_of fs file_produtos = Some d3 ->
  data_of fs file_pedidos = Some d4 ->
  data_of fs file_pedidositem = Some d5 ->
  exists V1 V2 V3 V4 : gset Z,
    main_etl fs executemany nome_banco []
    = (lift (transform d1 d2 d3 d4 d5 V1 V2 V3 V4)
       ≫= (fun '(c1, c2, c3, c4, c5) =>
              load executemany c1 c2 c3 c4 c5 nome_banco)) reads.
Proof.
  intros H1 H2 H3 H4 H5. unfold main_etl.
  extraction_step H1. extraction_step H2. extraction_step H3.
  extraction_step H4. extraction_step H5.
  exists V, V0, V1, V2. reflexivity.
Qed.

(** With a file that cannot be read, [main_etl] returns [False] after the
    reads up to and including that file, and does nothing else. *)
Lemma main_etl_unreadable :
  data_of fs file_repres = None
  \/ data_of fs file_fornclien = None
  \/ data_of fs file_produtos = None
  \/ data_of fs file_pedidos = None
  \/ data_of fs file_pedidositem = None ->
  exists n, main_etl fs executemany nome_banco [] = (firstn n reads, Ok false).
Proof.
  intros H. unfold main_etl.
  destruct (data_of fs file_repres) as [d1|] eqn:H1;
    [extraction_step H1|exists 1%nat; extraction_step H1; reflexivity].
  destruct (data_of fs file_fornclien) as [d2|] eqn:H2;
    [extraction_step H2|exists 2%nat; extraction_step H2; reflexivity].
  destruct (data_of fs file_produtos) as [d3|] eqn:H3;
    [extraction_step H3|exists 3%nat; extraction_step H3; reflexivity].
  destruct (data_of fs file_pedidos) as [d4|] eqn:H4;
    [extraction_step H4|exists 4%nat; extraction_step H4; reflexivity].
  destruct (data_of fs file_pedidositem) as [d5|] eqn:H5;
    [|exists 5%nat; extraction_step H5; reflexivity].
  destruct H as [H|[H|[H|[H|H]]]]; discriminate.
Qed.

(** Whatever happens after the five reads only adds to the trace. *)
Lemma after_reads_run (r : result (list tuple * list tuple * list tuple
                                   * list tuple * list tuple)) :
  exists rest out,
    (lift r ≫= (fun '(c1, c2, c3, c4, c5) =>
                  load executemany c1 c2 c3 c4 c5 nome_banco)) reads
    = ((reads ++ rest)%list, out).
Proof.
  destruct r as [[[[[c1 c2] c3] c4] c5]|e].
  - rewrite (lift_bind_ok _ _ _ _ eq_refl).
    destruct (load_run executemany c1 c2 c3 c4 c5 nome_banco reads)
      as (rest & out & -> & _).
    eauto.
  - rewrite (lift_bind_raise _ _ _ _ eq_refl).
    exists [], (Raise e). now rewrite app_nil_r.
Qed.

End Orchestrator.

(** ** The claims on the row transformers and the orchestrator *)

Lemma filter_none {A : Type} (p : A -> bool) (l : list A) :
  Forall (fun a => p a = false) l -> List.filter p l = [].
Proof.
  induction 1 as [|a l Ha _ IH]; [reflexivity|].
  cbn. now rewrite Ha.
Qed.

(** C4, at the input where the code and the claim part.  A blank line of
    the CSV file is the empty row: [get_valid_pk_set] skips it, and each
    of the five row transformers raises [IndexError] at its first
    [row[0]].  In [main_etl] the exception leaves after the five reads,
    before any insert. *)
Theorem row_transformers_raise_on_blank_line :
  (forall V W : gset Z,
      repres_row [] = Raise IndexError
      /\ fornclien_row V [] = Raise IndexError
      /\ produtos_row V [] = Raise IndexError
      /\ pedidos_row V [] = Raise IndexError
      /\ pedidositem_row V W [] = Raise IndexError)
  /\ get_valid_pk_set [[]] 0 = Ok ∅
  /\ forall executemany nome_banco,
      main_etl blank_line_fs executemany nome_banco [] = (reads, Raise IndexError).
Proof.
  split; [intros V W; repeat split|].
  split; [reflexivity|].
  intros executemany nome_banco. vm_compute. reflexivity.
Qed.

(** C10: a Client/Supplier row and a Product row whose output tuples hold
    the text "Não Informado" in columns declared INTEGER or REAL. *)
Theorem nao_informado_in_numeric_columns :
  (exists (V : gset Z) (t : tuple),
      fornclien_row V fornclien_example = Ok t
      /\ text_in_numeric_column MainDatabase.colunas_fornclien t "CODMUNICIPIO"
      /\ text_in_numeric_column MainDatabase.colunas_fornclien t "PRAZOPGTO")
  /\ (exists (V : gset Z) (t : tuple),
      produtos_row V produtos_example = Ok t
      /\ text_in_numeric_column MainDatabase.colunas_produtos t "VALCUSTO"
      /\ text_in_numeric_column MainDatabase.colunas_produtos t "VALVENDA"
      /\ text_in_numeric_column MainDatabase.colunas_produtos t "PESOBRUTO").
Proof.
  split.
  - exists {[ 10 ]}. eexists. split; [vm_compute; reflexivity|].
    split.
    + exists 6%nat. eexists. repeat split.
    + exists 9%nat. eexists. repeat split.
  - exists {[ 7 ]}. eexists. split; [vm_compute; reflexivity|].
    split; [|split].
    + exists 5%nat. eexists. repeat split.
    + exists 6%nat. eexists. repeat split.
    + exists 12%nat. eexists. repeat split.
Qed.

Lemma readable_or_not (fs : string -> option (list (list string))) :
  some_unreadable fs
  \/ exists d1 d2 d3 d4 d5,
      data_of fs file_repres = Some d1
      /\ data_of fs file_fornclien = Some d2
      /\ data_of fs file_produtos = Some d3
      /\ data_of fs file_pedidos = Some d4
      /\ data_of fs file_pedidositem = Some d5.
Proof.
  unfold some_unreadable.
  destruct (data_of fs file_repres) as [d1|]; [|left; tauto].
  destruct (data_of fs file_fornclien) as [d2|]; [|left; tauto].
  destruct (data_of fs file_produtos) as [d3|]; [|left; tauto].
  destruct (data_of fs file_pedidos) as [d4|]; [|left; tauto].
  destruct (data_of fs file_pedidositem) as [d5|]; [|left; tauto].
  right. exists d1, d2, d3, d4, d5. repeat split.
Qed.

Lemma no_insert_among (t : trace) :
  Forall (fun e => is_insert e = false) t ->
  Exists (fun e => is_insert e = true) t -> False.
Proof.
  intros Hall Hex. apply Exists_exists in Hex as (e & Hin & He).
  rewrite Forall_forall in Hall. specialize (Hall e Hin). congruence.
Qed.

(** C7: when one of the five files gives no data, [main_etl] returns
    [False] and its trace holds no insert.  And in every run, an insert,
    an exception of a row transformer, or the result [True] comes only
    after the five reads: the trace then starts with them. *)
Theorem main_etl_unreadable_aborts
    (fs : string -> option (list (list string)))
    (executemany :
      trace -> string -> list string -> list tuple -> string -> result unit)
    (nome_banco : string) (t : trace) (r : result bool) :
  main_etl fs executemany nome_banco [] = (t, r) ->
  (some_unreadable fs ->
     r = Ok false /\ Forall (fun e => is_insert e = false) t)
  /\ (r <> Ok false \/ Exists (fun e => is_insert e = true) t ->
      exists rest, t = (reads ++ rest)%list).
Proof.
  intros Hrun.
  assert (Habort : some_unreadable fs ->
            r = Ok false /\ Forall (fun e => is_insert e = false) t).
  { intros Hun.
    destruct (main_etl_unreadable fs executemany nome_banco Hun) as [n Hn].
    rewrite Hn in Hrun. inversion Hrun; subst. split; [reflexivity|].
    do 6 (destruct n as [|n]; [repeat constructor|]).
    repeat constructor. }
  split; [exact Habort|].
  intros Hafter.
  destruct (readable_or_not fs)
    as [Hun|(d1 & d2 & d3 & d4 & d5 & H1 & H2 & H3 & H4 & H5)].
  - destruct (Habort Hun) as [Hr Hno].
    destruct Hafter as [Hne|Hex]; [contradiction|].
    destruct (no_insert_among t Hno Hex).
  - destruct (main_etl_all_read fs executemany nome_banco d1 d2 d3 d4 d5
                H1 H2 H3 H4 H5) as (V1 & V2 & V3 & V4 & Hmain).
    rewrite Hmain in Hrun.
    destruct (after_reads_run executemany nome_banco
                (transform d1 d2 d3 d4 d5 V1 V2 V3 V4)) as (rest & out & Hafter').
    rewrite Hafter' in Hrun. inversion Hrun; subst. eauto.
Qed.

Lemma main_etl_unreadable_aborts_witness :
  Ok false = Ok false
  /\ Forall (fun e => is_insert e = false)
       [EvRead file_repres; EvRead file_fornclien; EvRead file_produtos].
Proof.
  apply (proj1 (main_etl_unreadable_aborts missing_produtos_fs accept_all
                  "bd_erp_n2.db"
                  [EvRead file_repres; EvRead file_fornclien;
                   EvRead file_produtos]
                  (Ok false) ltac:(vm_compute; reflexivity))).
  right; right; left. reflexivity.
Defined.

(** The output tuple of the Representative row of the end-to-end
    scenario; its last cell is the float that is exactly 11/2. *)
Lemma repres_row_acme :
  if_data repres_row [["10"; "PF"; "Acme"; "5.5"]]
  = Ok [[VInt 10; VStr "PF"; VStr "Acme";
         VFloat (S754_finite false 6192449487634432 (-50))]]
  /\ Builtins.float_exactly (S754_finite false 6192449487634432 (-50)) 11 2.
Proof. split; vm_compute; reflexivity. Qed.

(** C8, amended: the Representative data with the single row
    ("10","PF","Acme","5.5") transforms to the single tuple
    (10, "PF", "Acme", 5.5), and when the other four files give data whose
    rows have the columns their transformers read, the inserts into Repres
    are one insert of exactly that list.  The condition on the other files
    is needed, as the lemma after the witness shows. *)
Theorem acme_repres_loaded
    (fs : string -> option (list (list string)))
    (executemany :
      trace -> string -> list string -> list tuple -> string -> result unit)
    (nome_banco : string) (d2 d3 d4 d5 : list (list string)) :
  data_of fs file_repres = Some [["10"; "PF"; "Acme"; "5.5"]] ->
  data_of fs file_fornclien = Some d2 ->
  data_of fs file_produtos = Some d3 ->
  data_of fs file_pedidos = Some d4 ->
  data_of fs file_pedidositem = Some d5 ->
  Forall (fun row => (10 <= List.length row)%nat) d2 ->
  Forall (fun row => (13 <= List.length row)%nat) d3 ->
  Forall (fun row => (15 <= List.length row)%nat) d4 ->
  Forall (fun row => (11 <= List.length row)%nat) d5 ->
  exists (f : pyfloat) (t : trace) (r : result bool),
    Builtins.float_exactly f 11 2
    /\ if_data repres_row [["10"; "PF"; "Acme"; "5.5"]]
       = Ok [[VInt 10; VStr "PF"; VStr "Acme"; VFloat f]]
    /\ main_etl fs executemany nome_banco [] = (t, r)
    /\ List.filter (is_insert_into "Repres") t
       = [EvInsert "Repres"
            ["CODREPRES"; "TIPOPESS"; "NOMEFAN"; "COMISSAOBASE"]
            [[VInt 10; VStr "PF"; VStr "Acme"; VFloat f]] nome_banco].
Proof.
  intros H1 H2 H3 H4 H5 W2 W3 W4 W5.
  destruct repres_row_acme as [Hrow Hf].
  destruct (main_etl_all_read fs executemany nome_banco _ d2 d3 d4 d5
              H1 H2 H3 H4 H5) as (V1 & V2 & V3 & V4 & Hmain).
  destruct (returns_of_raises _
              (if_data_ok (fornclien_row V1) 10 d2
                 (fornclien_row_ok V1) W2)) as [c2 E2].
  destruct (returns_of_raises _
              (if_data_ok (produtos_row V2) 13 d3
                 (produtos_row_ok V2) W3)) as [c3 E3].
  destruct (returns_of_raises _
              (if_data_ok (pedidos_row V2) 15 d4
                 (pedidos_row_ok V2) W4)) as [c4 E4].
  destruct (returns_of_raises _
              (for_rows_ok (pedidositem_row V4 V3) 11 d5
                 (pedidositem_row_ok V4 V3) W5)) as [c5 E5].
  assert (Ht : transform [["10"; "PF"; "Acme"; "5.5"]] d2 d3 d4 d5 V1 V2 V3 V4
               = Ok ([[VInt 10; VStr "PF"; VStr "Acme";
                       VFloat (S754_finite false 6192449487634432 (-50))]],
                     c2, c3, c4, c5)).
  { unfold transform. rewrite Hrow, E2, E3, E4, E5. reflexivity. }
  rewrite (lift_bind_ok _ _ _ _ Ht) in Hmain.
  destruct (load_run executemany
              [[VInt 10; VStr "PF"; VStr "Acme";
                VFloat (S754_finite false 6192449487634432 (-50))]]
              c2 c3 c4 c5 nome_banco reads) as (rest & r & Hload & Hrest).
  rewrite Hload in Hmain.
  eexists _, _, r. split; [exact Hf|]. split; [exact Hrow|].
  split; [exact Hmain|].
  rewrite List.filter_app. cbn. now rewrite (filter_none _ _ Hrest).
Qed.

Lemma acme_repres_loaded_witness :
  exists (f : pyfloat) (t : trace) (r : result bool),
    Builtins.float_exactly f 11 2
    /\ if_data repres_row [["10"; "PF"; "Acme"; "5.5"]]
       = Ok [[VInt 10; VStr "PF"; VStr "Acme"; VFloat f]]
    /\ main_etl acme_fs accept_all "bd_erp_n2.db" [] = (t, r)
    /\ List.filter (is_insert_into "Repres") t
       = [EvInsert "Repres"
            ["CODREPRES"; "TIPOPESS"; "NOMEFAN"; "COMISSAOBASE"]
            [[VInt 10; VStr "PF"; VStr "Acme"; VFloat f]] "bd_erp_n2.db"].
Proof.
  apply (acme_repres_loaded acme_fs accept_all "bd_erp_n2.db"
           [["7"; "1"; "10"; "Loja"; "Natal"; "RN"; ""; "1"; "0"; "abc"]]
           [] [] []);
    try reflexivity; repeat constructor; simpl; lia.
Defined.

(** C8 as it is worded, with no condition on the other four files, does
    not hold.  With the Representative file of the scenario and the Product
    file missing, [main_etl] takes its early [return False] after the third
    read, and no insert into Repres is made. *)
Lemma acme_repres_not_loaded :
  data_of missing_produtos_fs file_repres = Some [["10"; "PF"; "Acme"; "5.5"]]
  /\ main_etl missing_produtos_fs accept_all "bd_erp_n2.db" []
     = ([EvRead file_repres; EvRead file_fornclien; EvRead file_produtos],
        Ok false)
  /\ ~ (forall (fs : string -> option (list (list string)))
              (executemany :
                 trace -> string -> list string -> list tuple -> string ->
                 result unit)
              (nome_banco : string),
          data_of fs file_repres = Some [["10"; "PF"; "Acme"; "5.5"]] ->
          exists (f : pyfloat) (t : trace) (r : result bool),
            main_etl fs executemany nome_banco [] = (t, r)
            /\ List.filter (is_insert_into "Repres") t
               = [EvInsert "Repres"
                    ["CODREPRES"; "TIPOPESS"; "NOMEFAN"; "COMISSAOBASE"]
                    [[VInt 10; VStr "PF"; VStr "Acme"; VFloat f]] nome_banco]).
Proof.
  assert (Hrun : main_etl missing_produtos_fs accept_all "bd_erp_n2.db" []
                 = ([EvRead file_repres; EvRead file_fornclien;
                     EvRead file_produtos], Ok false))
    by (vm_compute; reflexivity).
  split; [reflexivity|]. split; [exact Hrun|].
  intros H.
  destruct (H missing_produtos_fs accept_all "bd_erp_n2.db" eq_refl)
    as (f & t & r & Ht & Hins).
  rewrite Hrun in Ht. inversion Ht; subst t r.
  discriminate Hins.
Qed.

(** * Further properties of the code *)

(** ** Scalar coercion *)

Lemma remove_commas_app (a b : string) :
  Builtins.remove_commas (a ++ b)
  = Builtins.remove_commas a ++ Builtins.remove_commas b.
Proof.
  induction a as [|c a IH]; [reflexivity|].
  change (String c a ++ b) with (String c (a ++ b)).
  cbn [Builtins.remove_commas].
  destruct (Ascii.eqb c Builtins.comma); [exact IH|].
  change (String c ?x ++ ?y) with (String c (x ++ y)). now f_equal.
Qed.

Lemma safe_int_of_cleaned (s : string) :
  _safe_convert_to_int (Some s) = Ok (int_of_cleaned (Builtins.remove_commas s)).
Proof.
  rewrite safe_int_is_coerce_int. unfold Spec.coerce_int, int_of_cleaned.
  destruct s; reflexivity.
Qed.

Lemma safe_float_of_cleaned (s : string) :
  _safe_convert_to_float (Some s)
  = Ok (float_of_cleaned (Builtins.remove_commas s)).
Proof.
  destruct s as [|c s]; [reflexivity|].
  unfold _safe_convert_to_float, float_of_cleaned.
  destruct (py_float_raises_only_ValueError
              (Builtins.remove_commas (String c s))) as [[f ->]| ->];
    reflexivity.
Qed.

(** X2: a comma changes nothing, wherever it stands: the text with a comma
    between [a] and [b] coerces like the text without it.  This holds for
    the comma alone too, which is not the empty text and still gives the
    absent marker. *)
Theorem coercions_ignore_commas (a b : string) :
  _safe_convert_to_int (Some (a ++ "," ++ b))
  = _safe_convert_to_int (Some (a ++ b))
  /\ _safe_convert_to_float (Some (a ++ "," ++ b))
     = _safe_convert_to_float (Some (a ++ b)).
Proof.
  rewrite !safe_int_of_cleaned, !safe_float_of_cleaned.
  rewrite !remove_commas_app. split; reflexivity.
Qed.

(** X3: the integer coercion is the float coercion followed by truncation: it
    gives an integer exactly when the float coercion gives a float that is
    neither an infinity nor a NaN, and the absent marker otherwise. *)
Theorem int_coercion_is_truncated_float_coercion (v : option string) :
  _safe_convert_to_int v
  = match _safe_convert_to_float v with
    | Ok (Some (S754_infinity _)) | Ok (Some S754_nan) | Ok None => Ok None
    | Ok (Some f) => z ← Builtins.py_int f; Ok (Some z)
    | Raise e => Raise e
    end.
Proof.
  destruct v as [s|]; [|reflexivity].
  rewrite safe_int_of_cleaned, safe_float_of_cleaned.
  unfold int_of_cleaned, float_of_cleaned.
  destruct (Builtins.py_float (Builtins.remove_commas s)) as [f|e];
    [|reflexivity].
  destruct f; reflexivity.
Qed.

(** ** Primary-key set builder *)

Lemma pk_loop_members (data : list (list string)) (i : nat) :
  forall valid_ids valid_ids',
    pk_loop data i valid_ids = Ok valid_ids' ->
    forall z : Z,
      z ∈ valid_ids' <-> z ∈ valid_ids \/ (z <> 0 /\ coerced_key data i z).
Proof.
  induction data as [|row data IH]; intros S S' Hrun z.
  - cbn in Hrun. inversion Hrun; subst.
    split; [tauto|intros [H|[_ (row & s & [] & _)]]; exact H].
  - assert (Hcons : forall P : Prop,
              (z <> 0 /\ coerced_key data i z) \/ P ->
              (z <> 0 /\ coerced_key (row :: data) i z) \/ P).
    { intros P [[Hz (r & s & Hin & Hs)]|HP]; [left|now right].
      split; [exact Hz|]. exists r, s. split; [now right|exact Hs]. }
    destruct row as [|c row]; cbn [pk_loop] in Hrun.
    { rewrite (IH S S' Hrun z). split; [intros [H|H]; [now left|]|].
      - right. destruct (Hcons False (or_introl H)) as [H'|[]]. exact H'.
      - intros [H|[Hz (r & s & [<-|Hin] & Hnth & Hs)]]; [now left| |].
        + destruct i; discriminate.
        + right. split; [exact Hz|]. now exists r, s. }
    unfold getitem in Hrun.
    destruct (nth_error (c :: row) i) as [s|] eqn:Hnth; [|discriminate].
    cbn [mbind result_bind] in Hrun.
    destruct (_safe_convert_to_int (Some s)) as [[k|]|e] eqn:Hs;
      cbn [mbind result_bind] in Hrun; [| |discriminate].
    + rewrite (IH _ S' Hrun z). unfold truthy.
      destruct (Z.eqb_spec k 0) as [->|Hk]; cbn [negb].
      * split; [intros [H|H]; [now left|]|].
        -- right. destruct (Hcons False (or_introl H)) as [H'|[]]. exact H'.
        -- intros [H|[Hz (r & s' & [<-|Hin] & Hnth' & Hs')]]; [now left| |].
           ++ congruence.
           ++ right. split; [exact Hz|]. now exists r, s'.
      * rewrite elem_of_union, elem_of_singleton.
        split.
        -- intros [[->|H]|H]; [right|now left|].
           ++ split; [exact Hk|]. exists (c :: row), s.
              split; [now left|]. now split.
           ++ right. destruct (Hcons False (or_introl H)) as [H'|[]]. exact H'.
        -- intros [H|[Hz (r & s' & [<-|Hin] & Hnth' & Hs')]];
             [left; now right| |].
           ++ left; left. congruence.
           ++ right. split; [exact Hz|]. now exists r, s'.
    + rewrite (IH S S' Hrun z). split; [intros [H|H]; [now left|]|].
      * right. destruct (Hcons False (or_introl H)) as [H'|[]]. exact H'.
      * intros [H|[Hz (r & s' & [<-|Hin] & Hnth' & Hs')]]; [now left| |].
        -- congruence.
        -- right. split; [exact Hz|]. now exists r, s'.
Qed.

(** X4: the set [get_valid_pk_set] returns holds exactly the non-zero integers
    that the key column of some row coerces to: zero and uncoercible texts
    are left out, negative numbers are not. *)
Theorem get_valid_pk_set_members (data : list (list string)) (i : nat)
    (valid_ids : gset Z) :
  get_valid_pk_set data i = Ok valid_ids ->
  forall z : Z, z ∈ valid_ids <-> z <> 0 /\ coerced_key data i z.
Proof.
  intros Hrun z. rewrite (pk_loop_members data i ∅ valid_ids Hrun z).
  split; [intros [H|H]; [|exact H]|now right].
  now apply not_elem_of_empty in H.
Qed.

Lemma get_valid_pk_set_members_witness :
  (-5) ∈ ({[ 7; -5 ]} : gset Z)
  <-> -5 <> 0 /\ coerced_key [["7"; "a"]; []; ["0"]; ["x"]; ["-5"]] 0 (-5).
Proof.
  apply (get_valid_pk_set_members [["7"; "a"]; []; ["0"]; ["x"]; ["-5"]] 0).
  vm_compute. reflexivity.
Defined.

Lemma getitem_short (row : list string) (i : nat) :
  (List.length row <= i)%nat -> getitem row i = Raise IndexError.
Proof.
  intros Hi. apply nth_error_None in Hi. unfold getitem. now rewrite Hi.
Qed.

Lemma pk_loop_in_bounds (data : list (list string)) (i : nat) :
  Forall (fun row => row = [] \/ (i < List.length row)%nat) data ->
  forall valid_ids, raises (pk_loop data i valid_ids) = false.
Proof.
  induction 1 as [|row data Hrow _ IH]; intros S; [reflexivity|].
  destruct row as [|c row]; cbn [pk_loop]; [apply IH|].
  destruct Hrow as [Hrow|Hrow]; [discriminate|].
  apply raises_bind; [now apply getitem_ok|intros s].
  apply raises_bind; [apply safe_int_ok|intros pk_int]. apply IH.
Qed.

Lemma pk_loop_out_of_bounds (data : list (list string)) (i : nat) :
  Exists (fun row => row <> [] /\ (List.length row <= i)%nat) data ->
  forall valid_ids, pk_loop data i valid_ids = Raise IndexError.
Proof.
  induction data as [|row data IH]; intros Hex S;
    [now apply Exists_nil in Hex|].
  destruct row as [|c row]; cbn [pk_loop].
  { apply IH. apply Exists_cons in Hex as [[Hne _]|Hex]; [congruence|exact Hex]. }
  destruct (le_lt_dec (List.length (c :: row)) i) as [Hshort|Hlong].
  { now rewrite (getitem_short _ _ Hshort). }
  destruct (returns_of_raises _ (getitem_ok _ _ Hlong)) as [s ->].
  cbn [mbind result_bind].
  destruct (safe_int_total (Some s)) as [pk_int ->]. cbn [mbind result_bind].
  apply IH. apply Exists_cons in Hex as [[_ Hle]|Hex]; [lia|exact Hex].
Qed.

Lemma rows_in_bounds_or_not (data : list (list string)) (i : nat) :
  Forall (fun row => row = [] \/ (i < List.length row)%nat) data
  \/ Exists (fun row => row <> [] /\ (List.length row <= i)%nat) data.
Proof.
  induction data as [|row data [IH|IH]]; [left; constructor| |].
  - destruct row as [|c row]; [left; constructor; [now left|exact IH]|].
    destruct (le_lt_dec (List.length (c :: row)) i) as [Hshort|Hlong].
    + right. apply Exists_cons_hd. split; [discriminate|exact Hshort].
    + left. constructor; [now right|exact IH].
  - right. now apply Exists_cons_tl.
Qed.

(** X5: [get_valid_pk_set] returns a set when every row is blank or reaches the
    key column, and raises [IndexError] as soon as one non-blank row is too
    short for it; nothing else can happen. *)
Theorem get_valid_pk_set_bounds (data : list (list string)) (i : nat) :
  (Forall (fun row => row = [] \/ (i < List.length row)%nat) data
   /\ exists valid_ids, get_valid_pk_set data i = Ok valid_ids)
  \/ (Exists (fun row => row <> [] /\ (List.length row <= i)%nat) data
      /\ get_valid_pk_set data i = Raise IndexError).
Proof.
  destruct (rows_in_bounds_or_not data i) as [Hall|Hex].
  - left. split; [exact Hall|].
    apply returns_of_raises. now apply pk_loop_in_bounds.
  - right. split; [exact Hex|]. now apply pk_loop_out_of_bounds.
Qed.

(** X6: on column 0 only the rows count, not their order or their number of
    copies: two data sets with the same rows give the same key set. *)
Theorem get_valid_pk_set_same_rows (data data' : list (list string)) :
  (forall row, In row data <-> In row data') ->
  get_valid_pk_set data 0 = get_valid_pk_set data' 0.
Proof.
  intros Hsame.
  destruct (returns_of_raises _ (get_valid_pk_set_0_ok data)) as [S HS].
  destruct (returns_of_raises _ (get_valid_pk_set_0_ok data')) as [S' HS'].
  rewrite HS, HS'. f_equal. apply set_eq. intros z.
  rewrite (pk_loop_members data 0 ∅ S HS z).
  rewrite (pk_loop_members data' 0 ∅ S' HS' z).
  assert (Hkey : coerced_key data 0 z <-> coerced_key data' 0 z).
  { split; intros (row & s & Hin & H); exists row, s;
      (split; [now apply Hsame|exact H]). }
  now rewrite Hkey.
Qed.

Lemma get_valid_pk_set_same_rows_witness :
  get_valid_pk_set [["7"]; ["3"]; ["7"]] 0 = get_valid_pk_set [["3"]; ["7"]] 0.
Proof.
  apply (get_valid_pk_set_same_rows [["7"]; ["3"]; ["7"]] [["3"]; ["7"]]).
  intros row. simpl. tauto.
Defined.

(** ** Foreign-key resolver with a default *)

(** X7: [_tratamento_fk_com_default] hands back the coerced key when it is a
    non-zero member of the valid set and the default in every other case:
    a result other than the default is a non-zero valid key, and a non-zero
    valid key is never replaced. *)
Theorem tratamento_fk_result (s : string) (V : gset Z) (d : Z) :
  exists z,
    _tratamento_fk_com_default s V d = Ok z
    /\ (z = d \/ (z <> 0 /\ z ∈ V /\ _safe_convert_to_int (Some s) = Ok (Some z)))
    /\ (forall k, _safe_convert_to_int (Some s) = Ok (Some k) ->
                  k <> 0 -> k ∈ V -> z = k).
Proof.
  unfold _tratamento_fk_com_default.
  destruct (safe_int_total (Some s)) as [[k|] ->]; cbn [mbind result_bind].
  - destruct (Z.eqb_spec k 0) as [->|Hk].
    + exists d. split; [reflexivity|]. split; [now left|].
      intros k' Hk' Hne _. congruence.
    + case_bool_decide as Hin.
      * exists d. split; [reflexivity|]. split; [now left|].
        intros k' Hk' _ Hin'. congruence.
      * exists k. split; [reflexivity|].
        assert (k ∈ V) by (destruct (decide (k ∈ V)); [done|contradiction]).
        split; [right; repeat split; done|].
        intros k' Hk' _ _. congruence.
  - exists d. split; [reflexivity|]. split; [now left|].
    intros k Hk. discriminate.
Qed.

(** ** What a cell of an output tuple can hold *)

Lemma bind_Ok {A B : Type} (m : result A) (k : A -> result B) (b : B) :
  m ≫= k = Ok b -> exists a, m = Ok a /\ k a = Ok b.
Proof. destruct m as [a|e]; [eauto|discriminate]. Qed.

Lemma int_at_kind (row : list string) (i : nat) (c : pyval) :
  int_at row i = Ok c -> has_kind KIntOrNone c.
Proof.
  unfold int_at. intros (s & _ & H)%bind_Ok. apply bind_Ok in H as (v & _ & H).
  inversion H; subst. now destruct v.
Qed.

Lemma float_at_kind (row : list string) (i : nat) (c : pyval) :
  float_at row i = Ok c -> has_kind KFloatOrNone c.
Proof.
  unfold float_at. intros (s & _ & H)%bind_Ok.
  apply bind_Ok in H as (v & _ & H). inversion H; subst. now destruct v.
Qed.

Lemma fk_at_kind (row : list string) (i : nat) (V : gset Z) (c : pyval) :
  fk_at row i V = Ok c -> has_kind (KKey V) c.
Proof.
  unfold fk_at. intros (s & _ & H)%bind_Ok.
  destruct (clean_foreign_key_spec s V 0) as (z & Hz & Hin).
  rewrite Hz in H. inversion H; subst. exact Hin.
Qed.

Lemma text_or_none_kind (row : list string) (i : nat) (c : pyval) :
  or_lit (str_at row i) VNone = Ok c -> has_kind KTextOrNone c.
Proof.
  unfold or_lit, str_at. intros (v & (s & _ & Hv)%bind_Ok & H)%bind_Ok.
  inversion Hv; subst. inversion H; subst. unfold py_or, truthy.
  destruct (String.eqb_spec s ""); cbn; [exact I|assumption].
Qed.

Lemma text_or_lit_kind (row : list string) (i : nat) (d : string) (c : pyval) :
  d <> "" -> or_lit (str_at row i) (VStr d) = Ok c -> has_kind KText c.
Proof.
  intros Hd. unfold or_lit, str_at.
  intros (v & (s & _ & Hv)%bind_Ok & H)%bind_Ok.
  inversion Hv; subst. inversion H; subst. unfold py_or, truthy.
  destruct (String.eqb_spec s ""); cbn; assumption.
Qed.

Lemma float_or_text_kind (row : list string) (i : nat) (d : string)
    (c : pyval) :
  or_lit (float_at row i) (VStr d) = Ok c -> has_kind (KNonzeroFloatOr d) c.
Proof.
  unfold or_lit. intros (v & Hv%float_at_kind & H)%bind_Ok.
  inversion H; subst. unfold py_or.
  destruct v as [|z|f|s]; try contradiction; cbn; [reflexivity|].
  destruct (float_truthy f) eqn:E; cbn; [exact E|reflexivity].
Qed.

Lemma float_or_zero_kind (row : list string) (i : nat) (c : pyval) :
  or_lit (float_at row i) float_zero = Ok c -> has_kind KFloat c.
Proof.
  unfold or_lit. intros (v & Hv%float_at_kind & H)%bind_Ok.
  inversion H; subst. unfold py_or.
  destruct v as [|z|f|s]; try contradiction; cbn; [exact I|].
  destruct (float_truthy f); exact I.
Qed.

Lemma int_or_lit_kind (row : list string) (i : nat) (d : Z) (c : pyval) :
  or_lit (int_at row i) (VInt d) = Ok c -> has_kind KInt c.
Proof.
  unfold or_lit. intros (v & Hv%int_at_kind & H)%bind_Ok.
  inversion H; subst. unfold py_or.
  destruct v as [|z|f|s]; try contradiction; cbn; [exact I|].
  destruct (negb (z =? 0)%Z); exact I.
Qed.

Lemma fk_or_zero_kind (row : list string) (i : nat) (V : gset Z) (c : pyval) :
  or_lit (fk_at row i V) (VInt 0) = Ok c -> has_kind (KKey V) c.
Proof.
  unfold or_lit. intros (v & Hv%fk_at_kind & H)%bind_Ok.
  inversion H; subst. unfold py_or.
  destruct v as [|z|f|s]; try contradiction; cbn.
  destruct (negb (z =? 0)%Z); [exact Hv|now left].
Qed.

Lemma finalidnfe_at_kind (row : list string) (i : nat) (c : pyval) :
  finalidnfe_at row i = Ok c -> has_kind KOneOrTwo c.
Proof.
  unfold finalidnfe_at. intros (v & Hv & H)%bind_Ok.
  destruct (in_1_2 v) eqn:E.
  - rewrite Hv in H. inversion H; subst.
    destruct c as [|z|f|s]; try discriminate. cbn in E |- *.
    apply orb_true_iff in E as [E|E]; apply Z.eqb_eq in E; tauto.
  - inversion H; subst. now left.
Qed.

(** The cells of a tuple, one at a time, from the run that returned it. *)
Ltac cells_of H :=
  repeat (let c := fresh "c" in
          let Hc := fresh "Hc" in
          apply bind_Ok in H as (c & Hc & H));
  inversion H; subst; clear H.

Ltac kind_of_cell :=
  first
    [ eapply int_at_kind; eassumption
    | eapply float_at_kind; eassumption
    | eapply fk_at_kind; eassumption
    | eapply text_or_none_kind; eassumption
    | eapply text_or_lit_kind; [|eassumption]; discriminate
    | eapply float_or_text_kind; eassumption
    | eapply float_or_zero_kind; eassumption
    | eapply int_or_lit_kind; eassumption
    | eapply fk_or_zero_kind; eassumption
    | eapply finalidnfe_at_kind; eassumption ].

Ltac kinds := repeat (constructor; [kind_of_cell|]); constructor.

(** ** Row transformers: what they return and when they raise *)

Lemma bind_raise_here {A B : Type} (m : result A) (k : A -> result B) (e : exn) :
  m = Raise e -> m ≫= k = Raise e.
Proof. now intros ->. Qed.

Lemma bind_raise_later {A B : Type} (m : result A) (k : A -> result B) :
  index_only m -> (forall a, k a = Raise IndexError) ->
  m ≫= k = Raise IndexError.
Proof. intros [[a ->]| ->] Hk; [apply Hk|reflexivity]. Qed.

Lemma index_only_bind {A B : Type} (m : result A) (k : A -> result B) :
  index_only m -> (forall a, index_only (k a)) -> index_only (m ≫= k).
Proof. intros [[a ->]| ->] Hk; [apply Hk|now right]. Qed.

Lemma getitem_index_only (row : list string) (i : nat) :
  index_only (getitem row i).
Proof. unfold getitem. destruct (nth_error row i); [left; eauto|now right]. Qed.

Lemma int_at_index_only (row : list string) (i : nat) : index_only (int_at row i).
Proof.
  apply index_only_bind; [apply getitem_index_only|intros s].
  destruct (safe_int_total (Some s)) as [r ->]. left. cbn. eauto.
Qed.

Lemma float_at_index_only (row : list string) (i : nat) :
  index_only (float_at row i).
Proof.
  apply index_only_bind; [apply getitem_index_only|intros s].
  destruct (safe_float_total (Some s)) as [r ->]. left. cbn. eauto.
Qed.

Lemma str_at_index_only (row : list string) (i : nat) : index_only (str_at row i).
Proof.
  apply index_only_bind; [apply getitem_index_only|intros s]. left. cbn. eauto.
Qed.

Lemma fk_at_index_only (row : list string) (i : nat) (V : gset Z) :
  index_only (fk_at row i V).
Proof.
  apply index_only_bind; [apply getitem_index_only|intros s].
  destruct (clean_foreign_key_spec s V 0) as (z & -> & _). left. cbn. eauto.
Qed.

Lemma or_lit_index_only (e : result pyval) (d : pyval) :
  index_only e -> index_only (or_lit e d).
Proof.
  intros He. apply index_only_bind; [exact He|intros v]. left. cbn. eauto.
Qed.

Lemma finalidnfe_at_index_only (row : list string) (i : nat) :
  index_only (finalidnfe_at row i).
Proof.
  apply index_only_bind; [apply int_at_index_only|intros c].
  destruct (in_1_2 c); [apply int_at_index_only|left; cbn; eauto].
Qed.

Lemma int_at_short (row : list string) (i : nat) :
  (List.length row <= i)%nat -> int_at row i = Raise IndexError.
Proof. intros H. apply bind_raise_here. now apply getitem_short. Qed.

Lemma float_at_short (row : list string) (i : nat) :
  (List.length row <= i)%nat -> float_at row i = Raise IndexError.
Proof. intros H. apply bind_raise_here. now apply getitem_short. Qed.

Lemma str_at_short (row : list string) (i : nat) :
  (List.length row <= i)%nat -> str_at row i = Raise IndexError.
Proof. intros H. apply bind_raise_here. now apply getitem_short. Qed.

Lemma fk_at_short (row : list string) (i : nat) (V : gset Z) :
  (List.length row <= i)%nat -> fk_at row i V = Raise IndexError.
Proof. intros H. apply bind_raise_here. now apply getitem_short. Qed.

Lemma finalidnfe_at_short (row : list string) (i : nat) :
  (List.length row <= i)%nat -> finalidnfe_at row i = Raise IndexError.
Proof. intros H. apply bind_raise_here. now apply int_at_short. Qed.

Ltac short_cell :=
  first
    [ apply bind_raise_here; short_cell
    | apply int_at_short; lia
    | apply float_at_short; lia
    | apply str_at_short; lia
    | apply fk_at_short; lia
    | apply finalidnfe_at_short; lia ].

Ltac index_only_cell :=
  first
    [ apply or_lit_index_only; index_only_cell
    | apply int_at_index_only
    | apply float_at_index_only
    | apply str_at_index_only
    | apply fk_at_index_only
    | apply finalidnfe_at_index_only ].

(** The first cell past the end of the row raises; the cells before it
    return or raise the same exception. *)
Ltac short_row :=
  repeat first
    [ apply bind_raise_here; short_cell
    | apply bind_raise_later; [index_only_cell|intros ?] ].

Ltac reads_columns_proof lemma_ok :=
  intros row; split;
  [ intros Hlen;
    destruct (returns_of_raises _ (lemma_ok row Hlen)) as [t Ht];
    exists t; split; [exact Ht|];
    cells_of Ht; reflexivity
  | intros Hlen; short_row ].

Lemma row_transformers_read_columns_aux (V1 V2 V3 V4 : gset Z) :
  reads_columns repres_row 4
  /\ reads_columns (fornclien_row V1) 10
  /\ reads_columns (produtos_row V2) 13
  /\ reads_columns (pedidos_row V2) 15
  /\ reads_columns (pedidositem_row V4 V3) 11.
Proof.
  split; [|split; [|split; [|split]]].
  - unfold repres_row. reads_columns_proof repres_row_ok.
  - unfold fornclien_row. reads_columns_proof (fornclien_row_ok V1).
  - unfold produtos_row. reads_columns_proof (produtos_row_ok V2).
  - unfold pedidos_row. reads_columns_proof (pedidos_row_ok V2).
  - unfold pedidositem_row. reads_columns_proof (pedidositem_row_ok V4 V3).
Qed.

(** X8: each row transformer reads a fixed number of columns, 4, 10, 13, 15
    and 11: a row with at least that many gives a tuple of exactly that
    many cells, whatever its texts are, and a shorter row raises
    [IndexError]. *)
Theorem row_transformers_read_columns (V W : gset Z) :
  reads_columns repres_row 4
  /\ reads_columns (fornclien_row V) 10
  /\ reads_columns (produtos_row V) 13
  /\ reads_columns (pedidos_row V) 15
  /\ reads_columns (pedidositem_row V W) 11.
Proof. exact (row_transformers_read_columns_aux V V W V). Qed.

Lemma repres_row_kinds (row : list string) (t : tuple) :
  repres_row row = Ok t -> Forall2 has_kind repres_kinds t.
Proof. unfold repres_row. intros H. cells_of H. kinds. Qed.

Lemma fornclien_row_kinds (V : gset Z) (row : list string) (t : tuple) :
  fornclien_row V row = Ok t -> Forall2 has_kind (fornclien_kinds V) t.
Proof. unfold fornclien_row. intros H. cells_of H. kinds. Qed.

Lemma produtos_row_kinds (V : gset Z) (row : list string) (t : tuple) :
  produtos_row V row = Ok t -> Forall2 has_kind (produtos_kinds V) t.
Proof. unfold produtos_row. intros H. cells_of H. kinds. Qed.

Lemma pedidos_row_kinds (V : gset Z) (row : list string) (t : tuple) :
  pedidos_row V row = Ok t -> Forall2 has_kind (pedidos_kinds V) t.
Proof. unfold pedidos_row. intros H. cells_of H. kinds. Qed.

Lemma pedidositem_row_kinds (V W : gset Z) (row : list string) (t : tuple) :
  pedidositem_row V W row = Ok t -> Forall2 has_kind (pedidositem_kinds V W) t.
Proof. unfold pedidositem_row. intros H. cells_of H. kinds. Qed.

(** X9: an Order tuple never holds [None] or a text in a numeric column: the
    order number, the status, the payment term and the client key are
    integers, the client key being 0 or a valid key, the invoice purpose is
    1 or 2, and the weight and the six amounts are floats. *)
Theorem pedidos_row_cells (V : gset Z) (row : list string) (t : tuple) :
  pedidos_row V row = Ok t -> Forall2 has_kind (pedidos_kinds V) t.
Proof. apply pedidos_row_kinds. Qed.

Lemma pedidos_row_cells_witness :
  Forall2 has_kind (pedidos_kinds {[ 7 ]})
    [VInt 0; VNone; VNone; VInt 0; VNone; VInt 1; VInt 2; float_zero; VInt 0;
     float_zero; float_zero; float_zero; float_zero; float_zero; float_zero].
Proof.
  apply (pedidos_row_cells {[ 7 ]}
           [""; ""; ""; "9"; ""; "3"; "x"; ""; ""; ""; ""; ""; ""; ""; ""]).
  vm_compute. reflexivity.
Defined.

(** X10: what the cells of the other four tuples can hold.  A cell written
    [float or "text"] is a float other than zero or that text, so a cost,
    price, quantity or CFOP of zero is replaced like a missing one; a
    foreign-key cell is 0 or a valid key; the remaining cells keep [None]
    for what does not coerce. *)
Theorem row_cells (V W : gset Z) (row : list string) (t : tuple) :
  (repres_row row = Ok t -> Forall2 has_kind repres_kinds t)
  /\ (fornclien_row V row = Ok t -> Forall2 has_kind (fornclien_kinds V) t)
  /\ (produtos_row V row = Ok t -> Forall2 has_kind (produtos_kinds V) t)
  /\ (pedidositem_row V W row = Ok t ->
      Forall2 has_kind (pedidositem_kinds V W) t).
Proof.
  split; [apply repres_row_kinds|].
  split; [apply fornclien_row_kinds|].
  split; [apply produtos_row_kinds|apply pedidositem_row_kinds].
Qed.

Lemma row_cells_witness :
  Forall2 has_kind (produtos_kinds {[ 7 ]})
    [VInt 3; VStr "Cabo"; VInt 7; VInt 1; nao_informado; nao_informado;
     nao_informado; nao_informado; nao_informado; VInt 2; VStr "A";
     nao_informado; nao_informado].
Proof.
  apply (proj1 (proj2 (proj2 (row_cells {[ 7 ]} ∅
           ["3"; "Cabo"; "7"; "1"; "0"; "0.0"; "-0"; "0e5"; "x"; "2"; "A";
            ""; "0,0"]
           _)))).
  vm_compute. reflexivity.
Defined.

(** ** The transformation as a whole *)

Lemma for_rows_Ok (f : list string -> result tuple) (data : list (list string)) :
  forall cleaned,
    for_rows f data = Ok cleaned ->
    Forall2 (fun row t => f row = Ok t) data cleaned.
Proof.
  induction data as [|row data IH]; intros cleaned H.
  - inversion H. constructor.
  - cbn [for_rows] in H. apply bind_Ok in H as (t & Ht & H).
    apply bind_Ok in H as (ts & Hts & H). inversion H; subst.
    constructor; [exact Ht|now apply IH].
Qed.

Lemma if_data_Ok (f : list string -> result tuple) (data : list (list string))
    (cleaned : list tuple) :
  if_data f data = Ok cleaned ->
  Forall2 (fun row t => f row = Ok t) data cleaned.
Proof.
  destruct data; [intros H; inversion H; constructor|apply for_rows_Ok].
Qed.

Lemma Forall2_In_l {A B : Type} (R : A -> B -> Prop) (l : list A) (l' : list B)
    (a : A) :
  Forall2 R l l' -> In a l -> exists b, In b l' /\ R a b.
Proof.
  induction 1 as [|x y l l' Hxy _ IH]; intros Hin; [destruct Hin|].
  destruct Hin as [<-|Hin]; [exists y; split; [now left|exact Hxy]|].
  destruct (IH Hin) as (b & Hb & Hab). exists b. split; [now right|exact Hab].
Qed.

Lemma Forall2_In_r {A B : Type} (R : A -> B -> Prop) (l : list A) (l' : list B)
    (b : B) :
  Forall2 R l l' -> In b l' -> exists a, In a l /\ R a b.
Proof.
  induction 1 as [|x y l l' Hxy _ IH]; intros Hin; [destruct Hin|].
  destruct Hin as [<-|Hin]; [exists x; split; [now left|exact Hxy]|].
  destruct (IH Hin) as (a & Ha & Hab). exists a. split; [now right|exact Hab].
Qed.

(** The first cell of a tuple whose row starts with a text that coerces to
    a non-zero integer, for a first cell written [_safe_convert_to_int(row[0])]
    or [_safe_convert_to_int(row[0]) or 0]. *)
Lemma key_cell (row : list string) (s : string) (z : Z) :
  nth_error row 0 = Some s -> _safe_convert_to_int (Some s) = Ok (Some z) ->
  z <> 0 ->
  int_at row 0 = Ok (VInt z) /\ or_lit (int_at row 0) (VInt 0) = Ok (VInt z).
Proof.
  intros Hnth Hs Hz.
  assert (H : int_at row 0 = Ok (VInt z)).
  { unfold int_at, getitem. rewrite Hnth. cbn [mbind result_bind].
    now rewrite Hs. }
  split; [exact H|]. unfold or_lit. rewrite H. cbn. unfold py_or, truthy.
  destruct (Z.eqb_spec z 0); [contradiction|reflexivity].
Qed.

(** From a valid key to the tuple that carries it as its first cell. *)
Lemma valid_key_has_tuple (f : list string -> result tuple)
    (data : list (list string)) (V : gset Z) (cleaned : list tuple) (z : Z) :
  (forall row s t,
      nth_error row 0 = Some s ->
      _safe_convert_to_int (Some s) = Ok (Some z) -> z <> 0 ->
      f row = Ok t -> nth_error t 0 = Some (VInt z)) ->
  get_valid_pk_set data 0 = Ok V ->
  Forall2 (fun row t => f row = Ok t) data cleaned ->
  z ∈ V ->
  exists t', In t' cleaned /\ nth_error t' 0 = Some (VInt z).
Proof.
  intros Hf HV Hrows Hin.
  apply (pk_loop_members data 0 ∅ V HV z) in Hin as [Hin|Hin];
    [now apply not_elem_of_empty in Hin|].
  destruct Hin as (Hz & row & s & Hrow & Hnth & Hs).
  destruct (Forall2_In_l _ _ _ _ Hrows Hrow) as (t' & Ht' & Hrun).
  exists t'. split; [exact Ht'|]. now apply (Hf row s t').
Qed.

Lemma repres_key (z : Z) (row : list string) (s : string) (t : tuple) :
  nth_error row 0 = Some s ->
  _safe_convert_to_int (Some s) = Ok (Some z) -> z <> 0 ->
  repres_row row = Ok t -> nth_error t 0 = Some (VInt z).
Proof.
  intros Hnth Hs Hz H. destruct (key_cell row s z Hnth Hs Hz) as [Hk _].
  unfold repres_row in H. rewrite Hk in H. cells_of H.
  inversion Hc; subst. reflexivity.
Qed.

Lemma fornclien_key (V : gset Z) (z : Z) (row : list string) (s : string)
    (t : tuple) :
  nth_error row 0 = Some s ->
  _safe_convert_to_int (Some s) = Ok (Some z) -> z <> 0 ->
  fornclien_row V row = Ok t -> nth_error t 0 = Some (VInt z).
Proof.
  intros Hnth Hs Hz H. destruct (key_cell row s z Hnth Hs Hz) as [Hk _].
  unfold fornclien_row in H. rewrite Hk in H. cells_of H.
  inversion Hc; subst. reflexivity.
Qed.

Lemma produtos_key (V : gset Z) (z : Z) (row : list string) (s : string)
    (t : tuple) :
  nth_error row 0 = Some s ->
  _safe_convert_to_int (Some s) = Ok (Some z) -> z <> 0 ->
  produtos_row V row = Ok t -> nth_error t 0 = Some (VInt z).
Proof.
  intros Hnth Hs Hz H. destruct (key_cell row s z Hnth Hs Hz) as [Hk _].
  unfold produtos_row in H. rewrite Hk in H. cells_of H.
  inversion Hc; subst. reflexivity.
Qed.

Lemma pedidos_key (V : gset Z) (z : Z) (row : list string) (s : string)
    (t : tuple) :
  nth_error row 0 = Some s ->
  _safe_convert_to_int (Some s) = Ok (Some z) -> z <> 0 ->
  pedidos_row V row = Ok t -> nth_error t 0 = Some (VInt z).
Proof.
  intros Hnth Hs Hz H. destruct (key_cell row s z Hnth Hs Hz) as [_ Hk].
  unfold pedidos_row in H. rewrite Hk in H. cells_of H.
  inversion Hc; subst. reflexivity.
Qed.

(** A foreign-key cell that holds a non-zero integer holds a valid key. *)
Lemma key_cell_valid (kinds : list cell_kind) (V : gset Z) (t : tuple)
    (i : nat) (z : Z) :
  Forall2 has_kind kinds t -> nth_error kinds i = Some (KKey V) ->
  nth_error t i = Some (VInt z) -> z <> 0 -> z ∈ V.
Proof.
  intros Hk. revert i. induction Hk as [|k c kinds t Hkc _ IH]; intros i Hi Ht Hz.
  - destruct i; discriminate.
  - destruct i as [|i]; [|now apply (IH i)].
    inversion Hi; inversion Ht; subst. destruct Hkc; [contradiction|assumption].
Qed.

Lemma transform_Ok (d1 d2 d3 d4 d5 : list (list string)) (V1 V2 V3 V4 : gset Z)
    (c1 c2 c3 c4 c5 : list tuple) :
  transform d1 d2 d3 d4 d5 V1 V2 V3 V4 = Ok (c1, c2, c3, c4, c5) ->
  Forall2 (fun row t => repres_row row = Ok t) d1 c1
  /\ Forall2 (fun row t => fornclien_row V1 row = Ok t) d2 c2
  /\ Forall2 (fun row t => produtos_row V2 row = Ok t) d3 c3
  /\ Forall2 (fun row t => pedidos_row V2 row = Ok t) d4 c4
  /\ Forall2 (fun row t => pedidositem_row V4 V3 row = Ok t) d5 c5.
Proof.
  unfold transform. intros H.
  apply bind_Ok in H as (x1 & H1 & H). apply bind_Ok in H as (x2 & H2 & H).
  apply bind_Ok in H as (x3 & H3 & H). apply bind_Ok in H as (x4 & H4 & H).
  apply bind_Ok in H as (x5 & H5 & H). inversion H; subst.
  repeat split; first [now apply if_data_Ok|now apply for_rows_Ok].
Qed.

Lemma references_from (child parent : list tuple) (fk : nat)
    (data_child data_parent : list (list string)) (V : gset Z)
    (kinds : list cell_kind)
    (f g : list string -> result tuple) :
  (forall row t, f row = Ok t -> Forall2 has_kind kinds t) ->
  nth_error kinds fk = Some (KKey V) ->
  (forall z row s t,
      nth_error row 0 = Some s ->
      _safe_convert_to_int (Some s) = Ok (Some z) -> z <> 0 ->
      g row = Ok t -> nth_error t 0 = Some (VInt z)) ->
  get_valid_pk_set data_parent 0 = Ok V ->
  Forall2 (fun row t => f row = Ok t) data_child child ->
  Forall2 (fun row t => g row = Ok t) data_parent parent ->
  references child fk parent.
Proof.
  intros Hkinds Hfk Hkey HV Hchild Hparent t z Ht Hcell Hz.
  destruct (Forall2_In_r _ _ _ _ Hchild Ht) as (row & _ & Hrow).
  apply (valid_key_has_tuple g data_parent V parent z (Hkey z) HV Hparent).
  exact (key_cell_valid kinds V t fk z (Hkinds row t Hrow) Hfk Hcell Hz).
Qed.

(** X11: referential integrity of what the transformation returns, when the key
    sets are the ones [main_etl] builds: every non-zero foreign key is the
    primary key of a tuple of the table it points to.  Client/Supplier
    points to Representative, Product and Order to Client/Supplier, Order
    Item to Order and to Product. *)
Theorem transform_referential_integrity
    (d1 d2 d3 d4 d5 : list (list string)) (V1 V2 V3 V4 : gset Z)
    (c1 c2 c3 c4 c5 : list tuple) :
  get_valid_pk_set d1 0 = Ok V1 ->
  get_valid_pk_set d2 0 = Ok V2 ->
  get_valid_pk_set d3 0 = Ok V3 ->
  get_valid_pk_set d4 0 = Ok V4 ->
  transform d1 d2 d3 d4 d5 V1 V2 V3 V4 = Ok (c1, c2, c3, c4, c5) ->
  references c2 2 c1
  /\ references c3 2 c2
  /\ references c4 3 c2
  /\ references c5 0 c4
  /\ references c5 2 c3.
Proof.
  intros HV1 HV2 HV3 HV4 Ht.
  apply transform_Ok in Ht as (H1 & H2 & H3 & H4 & H5).
  repeat split.
  - apply (references_from c2 c1 2 d2 d1 V1 (fornclien_kinds V1)
             (fornclien_row V1) repres_row); try assumption; try reflexivity.
    + apply fornclien_row_kinds.
    + exact repres_key.
  - apply (references_from c3 c2 2 d3 d2 V2 (produtos_kinds V2)
             (produtos_row V2) (fornclien_row V1));
      try assumption; try reflexivity.
    + apply produtos_row_kinds.
    + exact (fornclien_key V1).
  - apply (references_from c4 c2 3 d4 d2 V2 (pedidos_kinds V2)
             (pedidos_row V2) (fornclien_row V1));
      try assumption; try reflexivity.
    + apply pedidos_row_kinds.
    + exact (fornclien_key V1).
  - apply (references_from c5 c4 0 d5 d4 V4 (pedidositem_kinds V4 V3)
             (pedidositem_row V4 V3) (pedidos_row V2));
      try assumption; try reflexivity.
    + apply pedidositem_row_kinds.
    + exact (pedidos_key V2).
  - apply (references_from c5 c3 2 d5 d3 V3 (pedidositem_kinds V4 V3)
             (pedidositem_row V4 V3) (produtos_row V2));
      try assumption; try reflexivity.
    + apply pedidositem_row_kinds.
    + exact (produtos_key V2).
Qed.

Lemma transform_referential_integrity_witness :
  exists c1 c2 c3 c4 c5 : list tuple,
    transform [["10"; "PF"; "Acme"; "5.5"]] [fornclien_example]
      [produtos_example] [pedidos_example] pedidositem_examples
      {[ 10 ]} {[ 7 ]} {[ 3 ]} {[ 55 ]} = Ok (c1, c2, c3, c4, c5)
    /\ references c2 2 c1
    /\ references c3 2 c2
    /\ references c4 3 c2
    /\ references c5 0 c4
    /\ references c5 2 c3.
Proof.
  do 5 eexists. split; [vm_compute; reflexivity|].
  apply (transform_referential_integrity
           [["10"; "PF"; "Acme"; "5.5"]] [fornclien_example]
           [produtos_example] [pedidos_example] pedidositem_examples
           {[ 10 ]} {[ 7 ]} {[ 3 ]} {[ 55 ]});
    vm_compute; reflexivity.
Defined.

(** ** The load and the outcomes of [main_etl] *)

Lemma etl_bind_unfold {A B : Type} (m : etl A) (k : A -> etl B) (t : trace) :
  (m ≫= k) t
  = match m t with
    | (t', Ok a) => k a t'
    | (t', Raise e) => (t', Raise e)
    end.
Proof. reflexivity. Qed.

Lemma insere_dados_tabela_answer
    (executemany :
      trace -> string -> list string -> list tuple -> string -> result unit)
    (nome_tabela : string) (colunas : list string) (dados : list tuple)
    (nome_banco : string) (t : trace) :
  insere_dados_tabela executemany nome_tabela colunas dados nome_banco t
  = ((t ++ [EvInsert nome_tabela colunas dados nome_banco])%list,
     match executemany t nome_tabela colunas dados nome_banco with
     | Ok _ => Ok true
     | Raise x => after_exception x
     end).
Proof.
  unfold insere_dados_tabela. rewrite !etl_bind_unfold.
  unfold history, log, lift.
  destruct (executemany t nome_tabela colunas dados nome_banco) as [[]|x];
    [reflexivity|destruct x; reflexivity].
Qed.

Lemma load_is_run_inserts
    (executemany :
      trace -> string -> list string -> list tuple -> string -> result unit)
    (c1 c2 c3 c4 c5 : list tuple) (nome_banco : string) (t : trace) :
  load executemany c1 c2 c3 c4 c5 nome_banco t
  = run_inserts executemany (planned_inserts c1 c2 c3 c4 c5 nome_banco) t.
Proof.
  unfold load, planned_inserts.
  do 5 (rewrite etl_bind_unfold, insere_dados_tabela_answer;
        cbn [run_inserts answer];
        match goal with
        | |- context [executemany ?h ?a ?b ?c ?d] =>
            destruct (executemany h a b c d) as [[]|[]];
            [cbn [negb]|reflexivity ..]
        end).
  reflexivity.
Qed.

(** The run of a list of inserts: all are accepted and the result is
    [True], or the first one the sink refuses is the last event. *)
Lemma run_inserts_cases
    (executemany :
      trace -> string -> list string -> list tuple -> string -> result unit)
    (todo : list event) :
  forall t : trace,
    (run_inserts executemany todo t = ((t ++ todo)%list, Ok true)
     /\ forall k e, nth_error todo k = Some e ->
                    answer executemany (t ++ firstn k todo)%list e = Ok tt)
    \/ exists k e x,
        nth_error todo k = Some e
        /\ (forall j e', (j < k)%nat -> nth_error todo j = Some e' ->
                         answer executemany (t ++ firstn j todo)%list e' = Ok tt)
        /\ answer executemany (t ++ firstn k todo)%list e = Raise x
        /\ run_inserts executemany todo t
           = ((t ++ firstn (S k) todo)%list, after_exception x).
Proof.
  induction todo as [|e todo IH]; intros t.
  - left. split; [cbn; now rewrite app_nil_r|]. intros [|k] e H; discriminate.
  - cbn [run_inserts].
    destruct (answer executemany t e) as [[]|x] eqn:He.
    + destruct (IH (t ++ [e])%list) as [[Hrun Hall]|(k & e' & x & Hk & Hbefore & Hx & Hrun)].
      * left. rewrite Hrun, <- app_assoc. split; [reflexivity|].
        intros [|k] e' Hk; cbn in Hk |- *.
        -- inversion Hk; subst. now rewrite app_nil_r.
        -- specialize (Hall k e' Hk). now rewrite <- app_assoc in Hall.
      * right. exists (S k), e', x. split; [exact Hk|]. split; [|split].
        -- intros [|j] e'' Hj Hnth; cbn in Hnth |- *.
           ++ inversion Hnth; subst. now rewrite app_nil_r.
           ++ assert (Hj' : (j < k)%nat) by lia.
              specialize (Hbefore j e'' Hj' Hnth).
              now rewrite <- app_assoc in Hbefore.
        -- cbn. now rewrite <- app_assoc in Hx.
        -- rewrite Hrun. now rewrite <- app_assoc.
    + right. exists 0%nat, e, x. split; [reflexivity|]. split; [|split].
      * intros j e' Hj. lia.
      * cbn. now rewrite app_nil_r.
      * reflexivity.
Qed.

Ltac index_only_row :=
  repeat (apply index_only_bind; [index_only_cell|intros ?]); left; cbn; eauto.

Lemma repres_row_index_only (row : list string) : index_only (repres_row row).
Proof. unfold repres_row. index_only_row. Qed.

Lemma fornclien_row_index_only (V : gset Z) (row : list string) :
  index_only (fornclien_row V row).
Proof. unfold fornclien_row. index_only_row. Qed.

Lemma produtos_row_index_only (V : gset Z) (row : list string) :
  index_only (produtos_row V row).
Proof. unfold produtos_row. index_only_row. Qed.

Lemma pedidos_row_index_only (V : gset Z) (row : list string) :
  index_only (pedidos_row V row).
Proof. unfold pedidos_row. index_only_row. Qed.

Lemma pedidositem_row_index_only (V W : gset Z) (row : list string) :
  index_only (pedidositem_row V W row).
Proof. unfold pedidositem_row. index_only_row. Qed.

Lemma for_rows_index_only (f : list string -> result tuple)
    (data : list (list string)) :
  (forall row, index_only (f row)) -> index_only (for_rows f data).
Proof.
  intros Hf. induction data as [|row data IH]; [left; cbn; eauto|].
  cbn [for_rows]. apply index_only_bind; [apply Hf|intros t].
  apply index_only_bind; [exact IH|intros ts]. left. cbn. eauto.
Qed.

Lemma if_data_index_only (f : list string -> result tuple)
    (data : list (list string)) :
  (forall row, index_only (f row)) -> index_only (if_data f data).
Proof.
  intros Hf. destruct data; [left; cbn; eauto|now apply for_rows_index_only].
Qed.

Lemma transform_index_only (d1 d2 d3 d4 d5 : list (list string))
    (V1 V2 V3 V4 : gset Z) :
  index_only (transform d1 d2 d3 d4 d5 V1 V2 V3 V4).
Proof.
  unfold transform.
  apply index_only_bind;
    [apply if_data_index_only, repres_row_index_only|intros c1].
  apply index_only_bind;
    [apply if_data_index_only, fornclien_row_index_only|intros c2].
  apply index_only_bind;
    [apply if_data_index_only, produtos_row_index_only|intros c3].
  apply index_only_bind;
    [apply if_data_index_only, pedidos_row_index_only|intros c4].
  apply index_only_bind;
    [apply for_rows_index_only, pedidositem_row_index_only|intros c5].
  left. cbn. eauto.
Qed.

Section Outcomes.

Variable fs : string -> option (list (list string)).

Variable executemany :
  trace -> string -> list string -> list tuple -> string -> result unit.

Variable nome_banco : string.

Ltac extraction_with_set H V HV :=
  rewrite read_bind_run; cbn beta iota; rewrite H;
  try match goal with
      | |- context [lift (get_valid_pk_set ?d 0) ≫= _] =>
          destruct (returns_of_raises _ (get_valid_pk_set_0_ok d)) as [V HV];
          rewrite (lift_bind_ok _ _ _ _ HV)
      end.

(** The three ways a run of [main_etl] can go. *)
Lemma main_etl_cases :
  (some_unreadable fs
   /\ exists n, main_etl fs executemany nome_banco [] = (firstn n reads, Ok false))
  \/ exists d1 d2 d3 d4 d5 V1 V2 V3 V4,
      extracted fs d1 d2 d3 d4 d5 V1 V2 V3 V4
      /\ ((transform d1 d2 d3 d4 d5 V1 V2 V3 V4 = Raise IndexError
           /\ main_etl fs executemany nome_banco [] = (reads, Raise IndexError))
          \/ exists c1 c2 c3 c4 c5,
              transform d1 d2 d3 d4 d5 V1 V2 V3 V4 = Ok (c1, c2, c3, c4, c5)
              /\ main_etl fs executemany nome_banco []
                 = run_inserts executemany
                     (planned_inserts c1 c2 c3 c4 c5 nome_banco) reads).
Proof.
  destruct (readable_or_not fs)
    as [Hun|(d1 & d2 & d3 & d4 & d5 & H1 & H2 & H3 & H4 & H5)].
  - left. split; [exact Hun|].
    exact (main_etl_unreadable fs executemany nome_banco Hun).
  - right. exists d1, d2, d3, d4, d5.
    assert (Hmain : exists V1 V2 V3 V4,
               (get_valid_pk_set d1 0 = Ok V1
                /\ get_valid_pk_set d2 0 = Ok V2
                /\ get_valid_pk_set d3 0 = Ok V3
                /\ get_valid_pk_set d4 0 = Ok V4)
               /\ main_etl fs executemany nome_banco []
                  = (lift (transform d1 d2 d3 d4 d5 V1 V2 V3 V4)
                     ≫= (fun '(c1, c2, c3, c4, c5) =>
                            load executemany c1 c2 c3 c4 c5 nome_banco))
                      reads).
    { unfold main_etl.
      extraction_with_set H1 V1 HV1. extraction_with_set H2 V2 HV2.
      extraction_with_set H3 V3 HV3. extraction_with_set H4 V4 HV4.
      extraction_with_set H5 V5 HV5.
      exists V1, V2, V3, V4. split; [repeat split; assumption|reflexivity]. }
    destruct Hmain as (V1 & V2 & V3 & V4 & (HV1 & HV2 & HV3 & HV4) & Hmain).
    exists V1, V2, V3, V4. split; [repeat split; assumption|].
    destruct (transform_index_only d1 d2 d3 d4 d5 V1 V2 V3 V4)
      as [[[[[[c1 c2] c3] c4] c5] Ht]|Ht].
    + right. exists c1, c2, c3, c4, c5. split; [exact Ht|].
      rewrite Hmain, (lift_bind_ok _ _ _ _ Ht). apply load_is_run_inserts.
    + left. split; [exact Ht|].
      now rewrite Hmain, (lift_bind_raise _ _ _ _ Ht).
Qed.

End Outcomes.

Lemma run_inserts_trace
    (executemany :
      trace -> string -> list string -> list tuple -> string -> result unit)
    (todo : list event) (t : trace) :
  exists n, fst (run_inserts executemany todo t) = (t ++ firstn n todo)%list.
Proof.
  destruct (run_inserts_cases executemany todo t)
    as [[-> _]|(k & e & x & _ & _ & _ & ->)].
  - exists (List.length todo). now rewrite firstn_all.
  - now exists (S k).
Qed.

Lemma in_firstn {A : Type} (n : nat) (l : list A) (a : A) :
  In a (firstn n l) -> In a l.
Proof.
  revert l. induction n as [|n IH]; intros [|x l] H; try destruct H.
  - now left.
  - right. now apply IH.
Qed.

Lemma firstn_succ {A : Type} (l : list A) (k : nat) (a : A) :
  nth_error l k = Some a -> firstn (S k) l = (firstn k l ++ [a])%list.
Proof.
  revert k. induction l as [|x l IH]; intros [|k] H; try discriminate.
  - inversion H. reflexivity.
  - cbn [firstn]. now rewrite (IH k H).
Qed.

Lemma no_insert_in_reads (n : nat) (e : event) :
  In e (firstn n reads) -> is_insert e = false.
Proof.
  intros H. apply in_firstn in H.
  repeat (destruct H as [<-|H]; [reflexivity|]). destruct H.
Qed.

(** Every insert of a run is one of the five planned ones, made from what
    the transformation returned for the data of the five files. *)
Lemma main_etl_insert_is_planned
    (fs : string -> option (list (list string)))
    (executemany :
      trace -> string -> list string -> list tuple -> string -> result unit)
    (nome_banco : string) (t : trace) (r : result bool) (e : event) :
  main_etl fs executemany nome_banco [] = (t, r) ->
  In e t -> is_insert e = true ->
  exists d1 d2 d3 d4 d5 V1 V2 V3 V4 c1 c2 c3 c4 c5,
    extracted fs d1 d2 d3 d4 d5 V1 V2 V3 V4
    /\ transform d1 d2 d3 d4 d5 V1 V2 V3 V4 = Ok (c1, c2, c3, c4, c5)
    /\ In e (planned_inserts c1 c2 c3 c4 c5 nome_banco).
Proof.
  intros Hrun Hin He.
  destruct (main_etl_cases fs executemany nome_banco)
    as [[_ [n Hn]]|(d1 & d2 & d3 & d4 & d5 & V1 & V2 & V3 & V4 & Hex & Hcase)].
  - rewrite Hn in Hrun. inversion Hrun; subst.
    apply no_insert_in_reads in Hin. congruence.
  - destruct Hcase as [[_ Hr]|(c1 & c2 & c3 & c4 & c5 & Ht & Hr)].
    + rewrite Hr in Hrun. inversion Hrun; subst.
      apply (no_insert_in_reads 5) in Hin. congruence.
    + exists d1, d2, d3, d4, d5, V1, V2, V3, V4, c1, c2, c3, c4, c5.
      split; [exact Hex|]. split; [exact Ht|].
      destruct (run_inserts_trace executemany
                  (planned_inserts c1 c2 c3 c4 c5 nome_banco) reads) as [n Hn].
      rewrite <- Hr, Hrun in Hn. cbn [fst] in Hn. subst t.
      apply in_app_or in Hin as [Hin|Hin].
      * apply (no_insert_in_reads 5) in Hin. congruence.
      * now apply in_firstn in Hin.
Qed.

(** X12: [main_etl] returns [True] only after a complete run: the five files
    were read, every row was transformed, and the five inserts were made in
    the order Repres, FornClien, Produtos, Pedidos, PedidosItem, each one
    accepted by the sink. *)
Theorem main_etl_true
    (fs : string -> option (list (list string)))
    (executemany :
      trace -> string -> list string -> list tuple -> string -> result unit)
    (nome_banco : string) (t : trace) :
  main_etl fs executemany nome_banco [] = (t, Ok true) ->
  exists d1 d2 d3 d4 d5 V1 V2 V3 V4 c1 c2 c3 c4 c5,
    extracted fs d1 d2 d3 d4 d5 V1 V2 V3 V4
    /\ transform d1 d2 d3 d4 d5 V1 V2 V3 V4 = Ok (c1, c2, c3, c4, c5)
    /\ t = (reads ++ planned_inserts c1 c2 c3 c4 c5 nome_banco)%list
    /\ forall k e,
        nth_error (planned_inserts c1 c2 c3 c4 c5 nome_banco) k = Some e ->
        answer executemany
          (reads ++ firstn k (planned_inserts c1 c2 c3 c4 c5 nome_banco))%list e
        = Ok tt.
Proof.
  intros Hrun.
  destruct (main_etl_cases fs executemany nome_banco)
    as [[_ [n Hn]]|(d1 & d2 & d3 & d4 & d5 & V1 & V2 & V3 & V4 & Hex & Hcase)].
  { rewrite Hn in Hrun. discriminate. }
  destruct Hcase as [[_ Hr]|(c1 & c2 & c3 & c4 & c5 & Ht & Hr)].
  { rewrite Hr in Hrun. discriminate. }
  exists d1, d2, d3, d4, d5, V1, V2, V3, V4, c1, c2, c3, c4, c5.
  split; [exact Hex|]. split; [exact Ht|].
  rewrite Hrun in Hr.
  destruct (run_inserts_cases executemany
              (planned_inserts c1 c2 c3 c4 c5 nome_banco) reads)
    as [[Hall Hacc]|(k & e & x & _ & _ & _ & Hstop)].
  - rewrite Hall in Hr. inversion Hr; subst. split; [reflexivity|exact Hacc].
  - rewrite Hstop in Hr. inversion Hr as [[Ht' Hx]].
    unfold after_exception in Hx. destruct (exn_eqb x Sqlite3Error); discriminate.
Qed.

Lemma main_etl_true_witness :
  exists d1 d2 d3 d4 d5 V1 V2 V3 V4 c1 c2 c3 c4 c5,
    extracted acme_fs d1 d2 d3 d4 d5 V1 V2 V3 V4
    /\ transform d1 d2 d3 d4 d5 V1 V2 V3 V4 = Ok (c1, c2, c3, c4, c5)
    /\ fst (main_etl acme_fs accept_all "bd_erp_n2.db" [])
       = (reads ++ planned_inserts c1 c2 c3 c4 c5 "bd_erp_n2.db")%list
    /\ forall k e,
        nth_error (planned_inserts c1 c2 c3 c4 c5 "bd_erp_n2.db") k = Some e ->
        answer accept_all
          (reads ++ firstn k (planned_inserts c1 c2 c3 c4 c5 "bd_erp_n2.db"))%list
          e
        = Ok tt.
Proof.
  apply (main_etl_true acme_fs accept_all "bd_erp_n2.db").
  vm_compute. reflexivity.
Defined.

(** X13: [main_etl] returns [False] in two cases only: a file gave no data, and
    then nothing but reads happened; or the sink raised [sqlite3.Error] on
    an insert, which is then the last event of the run, after the inserts
    that were accepted before it. *)
Theorem main_etl_false
    (fs : string -> option (list (list string)))
    (executemany :
      trace -> string -> list string -> list tuple -> string -> result unit)
    (nome_banco : string) (t : trace) :
  main_etl fs executemany nome_banco [] = (t, Ok false) ->
  (some_unreadable fs /\ exists n, t = firstn n reads)
  \/ exists t1 nome_tabela colunas dados,
      t = (t1 ++ [EvInsert nome_tabela colunas dados nome_banco])%list
      /\ executemany t1 nome_tabela colunas dados nome_banco = Raise Sqlite3Error.
Proof.
  intros Hrun.
  destruct (main_etl_cases fs executemany nome_banco)
    as [[Hun [n Hn]]|(d1 & d2 & d3 & d4 & d5 & V1 & V2 & V3 & V4 & Hex & Hcase)].
  { left. split; [exact Hun|]. rewrite Hn in Hrun. inversion Hrun. eauto. }
  destruct Hcase as [[_ Hr]|(c1 & c2 & c3 & c4 & c5 & Ht & Hr)].
  { rewrite Hr in Hrun. discriminate. }
  right. rewrite Hrun in Hr.
  destruct (run_inserts_cases executemany
              (planned_inserts c1 c2 c3 c4 c5 nome_banco) reads)
    as [[Hall _]|(k & e & x & Hk & _ & Hx & Hstop)].
  { rewrite Hall in Hr. discriminate. }
  rewrite (firstn_succ _ _ _ Hk) in Hstop.
  rewrite Hstop in Hr. inversion Hr as [[Ht' Hx']].
  assert (x = Sqlite3Error) as ->.
  { unfold after_exception in Hx'. destruct x; cbn in Hx'; congruence. }
  exists (reads ++ firstn k (planned_inserts c1 c2 c3 c4 c5 nome_banco))%list.
  assert (He : exists tab cols rows, e = EvInsert tab cols rows nome_banco).
  { apply nth_error_In in Hk.
    repeat (destruct Hk as [<-|Hk]; [eauto|]). destruct Hk. }
  destruct He as (tab & cols & rows & ->).
  exists tab, cols, rows. split; [now rewrite <- app_assoc|exact Hx].
Qed.

Lemma main_etl_false_witness :
  (some_unreadable acme_fs
   /\ exists n,
       fst (main_etl acme_fs (refuse "Produtos" Sqlite3Error) "bd_erp_n2.db" [])
       = firstn n reads)
  \/ exists t1 nome_tabela colunas dados,
      fst (main_etl acme_fs (refuse "Produtos" Sqlite3Error) "bd_erp_n2.db" [])
      = (t1 ++ [EvInsert nome_tabela colunas dados "bd_erp_n2.db"])%list
      /\ refuse "Produtos" Sqlite3Error t1 nome_tabela colunas dados
           "bd_erp_n2.db"
         = Raise Sqlite3Error.
Proof.
  apply (main_etl_false acme_fs (refuse "Produtos" Sqlite3Error) "bd_erp_n2.db").
  vm_compute. reflexivity.
Defined.

(** X14: two kinds of exception leave [main_etl]: the [IndexError] of a row that
    is too short, raised after the five reads and before any insert; and
    whatever the sink raises on an insert that is not [sqlite3.Error],
    which [insere_dados_tabela] does not catch. *)
Theorem main_etl_raises
    (fs : string -> option (list (list string)))
    (executemany :
      trace -> string -> list string -> list tuple -> string -> result unit)
    (nome_banco : string) (t : trace) (x : exn) :
  main_etl fs executemany nome_banco [] = (t, Raise x) ->
  (x = IndexError /\ t = reads)
  \/ exists t1 nome_tabela colunas dados,
      t = (t1 ++ [EvInsert nome_tabela colunas dados nome_banco])%list
      /\ executemany t1 nome_tabela colunas dados nome_banco = Raise x
      /\ x <> Sqlite3Error.
Proof.
  intros Hrun.
  destruct (main_etl_cases fs executemany nome_banco)
    as [[Hun [n Hn]]|(d1 & d2 & d3 & d4 & d5 & V1 & V2 & V3 & V4 & Hex & Hcase)].
  { rewrite Hn in Hrun. discriminate. }
  destruct Hcase as [[_ Hr]|(c1 & c2 & c3 & c4 & c5 & Ht & Hr)].
  { left. rewrite Hr in Hrun. inversion Hrun. now split. }
  right. rewrite Hrun in Hr.
  destruct (run_inserts_cases executemany
              (planned_inserts c1 c2 c3 c4 c5 nome_banco) reads)
    as [[Hall _]|(k & e & y & Hk & _ & Hx & Hstop)].
  { rewrite Hall in Hr. discriminate. }
  rewrite (firstn_succ _ _ _ Hk) in Hstop.
  rewrite Hstop in Hr. inversion Hr as [[Ht' Hx']].
  assert (y = x /\ x <> Sqlite3Error) as [-> Hne].
  { unfold after_exception in Hx'.
    destruct y; cbn in Hx'; inversion Hx'; split; congruence. }
  exists (reads ++ firstn k (planned_inserts c1 c2 c3 c4 c5 nome_banco))%list.
  assert (He : exists tab cols rows, e = EvInsert tab cols rows nome_banco).
  { apply nth_error_In in Hk.
    repeat (destruct Hk as [<-|Hk]; [eauto|]). destruct Hk. }
  destruct He as (tab & cols & rows & ->).
  exists tab, cols, rows. split; [now rewrite <- app_assoc|]. now split.
Qed.

Lemma main_etl_raises_witness :
  (OverflowError = IndexError
   /\ fst (main_etl acme_fs (refuse "FornClien" OverflowError) "bd_erp_n2.db" [])
      = reads)
  \/ exists t1 nome_tabela colunas dados,
      fst (main_etl acme_fs (refuse "FornClien" OverflowError) "bd_erp_n2.db" [])
      = (t1 ++ [EvInsert nome_tabela colunas dados "bd_erp_n2.db"])%list
      /\ refuse "FornClien" OverflowError t1 nome_tabela colunas dados
           "bd_erp_n2.db"
         = Raise OverflowError
      /\ OverflowError <> Sqlite3Error.
Proof.
  apply (main_etl_raises acme_fs (refuse "FornClien" OverflowError)
           "bd_erp_n2.db").
  vm_compute. reflexivity.
Defined.

(** X15: what is handed to the sink: every insert of a run goes to the database
    [main_etl] was called with, for one of the five tables; it carries one
    tuple for each data row of that table's file, and each tuple has as
    many cells as the insert names columns. *)
Theorem main_etl_inserts_match
    (fs : string -> option (list (list string)))
    (executemany :
      trace -> string -> list string -> list tuple -> string -> result unit)
    (nome_banco : string) (t : trace) (r : result bool)
    (nome_tabela : string) (colunas : list string) (dados : list tuple)
    (banco : string) :
  main_etl fs executemany nome_banco [] = (t, r) ->
  In (EvInsert nome_tabela colunas dados banco) t ->
  banco = nome_banco
  /\ Forall (fun tu : tuple => List.length tu = List.length colunas) dados
  /\ exists filename data,
      In (nome_tabela, filename) table_files
      /\ data_of fs filename = Some data
      /\ List.length dados = List.length data.
Proof.
  intros Hrun Hin.
  destruct (main_etl_insert_is_planned fs executemany nome_banco t r _
              Hrun Hin eq_refl)
    as (d1 & d2 & d3 & d4 & d5 & V1 & V2 & V3 & V4 & c1 & c2 & c3 & c4 & c5
        & Hex & Ht & Hplanned).
  destruct Hex as (H1 & H2 & H3 & H4 & H5 & _).
  apply transform_Ok in Ht as (F1 & F2 & F3 & F4 & F5).
  assert (Hwidth : forall (f : list string -> result tuple) n data cleaned,
             reads_columns f n ->
             Forall2 (fun row t => f row = Ok t) data cleaned ->
             Forall (fun tu : tuple => List.length tu = n) cleaned
             /\ List.length cleaned = List.length data).
  { intros f n data cleaned Hf HF. split.
    - induction HF as [|row tu data cleaned Hrow _ IH]; constructor; [|exact IH].
      destruct (Hf row) as [Hlong Hshort].
      destruct (le_lt_dec n (List.length row)) as [Hle|Hlt].
      + destruct (Hlong Hle) as (tu' & Htu' & Hlen). congruence.
      + rewrite (Hshort Hlt) in Hrow. discriminate.
    - symmetry. eapply Forall2_length. exact HF. }
  destruct (row_transformers_read_columns_aux V1 V2 V3 V4)
    as (R1 & R2 & R3 & R4 & R5).
  destruct Hplanned as [E|[E|[E|[E|[E|[]]]]]]; inversion E; subst;
    (split; [reflexivity|]).
  - destruct (Hwidth _ _ _ _ R1 F1) as [Hw Hl]. split; [exact Hw|].
    exists file_repres, d1. cbn. tauto.
  - destruct (Hwidth _ _ _ _ R2 F2) as [Hw Hl]. split; [exact Hw|].
    exists file_fornclien, d2. cbn. tauto.
  - destruct (Hwidth _ _ _ _ R3 F3) as [Hw Hl]. split; [exact Hw|].
    exists file_produtos, d3. cbn. tauto.
  - destruct (Hwidth _ _ _ _ R4 F4) as [Hw Hl]. split; [exact Hw|].
    exists file_pedidos, d4. cbn. tauto.
  - destruct (Hwidth _ _ _ _ R5 F5) as [Hw Hl]. split; [exact Hw|].
    exists file_pedidositem, d5. cbn. tauto.
Qed.

Lemma main_etl_inserts_match_witness :
  "bd_erp_n2.db" = "bd_erp_n2.db"
  /\ Forall (fun tu : tuple => List.length tu = 4%nat)
       [[VInt 10; VStr "PF"; VStr "Acme";
         VFloat (S754_finite false 6192449487634432 (-50))]]
  /\ exists filename data,
      In ("Repres", filename) table_files
      /\ data_of acme_fs filename = Some data
      /\ 1%nat = List.length data.
Proof.
  apply (main_etl_inserts_match acme_fs accept_all "bd_erp_n2.db"
           (fst (main_etl acme_fs accept_all "bd_erp_n2.db" []))
           (snd (main_etl acme_fs accept_all "bd_erp_n2.db" []))
           "Repres" ["CODREPRES"; "TIPOPESS"; "NOMEFAN"; "COMISSAOBASE"]
           [[VInt 10; VStr "PF"; VStr "Acme";
             VFloat (S754_finite false 6192449487634432 (-50))]]
           "bd_erp_n2.db").
  - vm_compute. reflexivity.
  - vm_compute. do 5 right. left. reflexivity.
Defined.

(** X16: the tables are loaded parents first: in every run the tables inserted
    into are, in this order, the first few of Repres, FornClien, Produtos,
    Pedidos and PedidosItem, each at most once. *)
Theorem main_etl_insert_order
    (fs : string -> option (list (list string)))
    (executemany :
      trace -> string -> list string -> list tuple -> string -> result unit)
    (nome_banco : string) (t : trace) (r : result bool) :
  main_etl fs executemany nome_banco [] = (t, r) ->
  exists n,
    omap table_of t
    = firstn n ["Repres"; "FornClien"; "Produtos"; "Pedidos"; "PedidosItem"].
Proof.
  intros Hrun.
  destruct (main_etl_cases fs executemany nome_banco)
    as [[_ [n Hn]]|(d1 & d2 & d3 & d4 & d5 & V1 & V2 & V3 & V4 & _ & Hcase)].
  { exists 0%nat. rewrite Hn in Hrun. inversion Hrun; subst.
    do 6 (destruct n as [|n]; [reflexivity|]). reflexivity. }
  destruct Hcase as [[_ Hr]|(c1 & c2 & c3 & c4 & c5 & _ & Hr)].
  { exists 0%nat. rewrite Hr in Hrun. inversion Hrun; subst. reflexivity. }
  destruct (run_inserts_trace executemany
              (planned_inserts c1 c2 c3 c4 c5 nome_banco) reads) as [n Hn].
  rewrite <- Hr, Hrun in Hn. cbn [fst] in Hn. subst t. exists n.
  do 6 (destruct n as [|n]; [reflexivity|]). reflexivity.
Qed.

Lemma main_etl_insert_order_witness :
  exists n,
    omap table_of
      (fst (main_etl acme_fs (refuse "Produtos" Sqlite3Error) "bd_erp_n2.db" []))
    = firstn n ["Repres"; "FornClien"; "Produtos"; "Pedidos"; "PedidosItem"].
Proof.
  apply (main_etl_insert_order acme_fs (refuse "Produtos" Sqlite3Error)
           "bd_erp_n2.db" _
           (snd (main_etl acme_fs (refuse "Produtos" Sqlite3Error)
                   "bd_erp_n2.db" []))).
  vm_compute. reflexivity.
Defined.

Lemma after_exception_not_true (x : exn) : after_exception x <> Ok true.
Proof. destruct x; discriminate. Qed.

Lemma after_exception_false (x : exn) :
  after_exception x = Ok false -> x = Sqlite3Error.
Proof. destruct x; cbn; congruence. Qed.

Lemma append_length (a b : string) :
  String.length (a ++ b) = (String.length a + String.length b)%nat.
Proof.
  induction a as [|c a IH]; [reflexivity|].
  change (String c a ++ b) with (String c (a ++ b)). cbn. now rewrite IH.
Qed.

Section DatabaseRuns.

Variable sqlite : db_trace -> db_event -> result unit.

(** One run of a schema function, by cases on the answers of the driver. *)
Ltac answers H :=
  repeat match type of H with
         | context [sqlite ?h ?e] =>
             let E := fresh "E" in
             destruct (sqlite h e) as [[]|?] eqn:E; cbn in H
         end;
  inversion H; subst; clear H.

(** The event on which the driver raised the [sqlite3.Error] that became
    the result [False]. *)
Ltac refusal Hr :=
  apply after_exception_false in Hr;
  match type of Hr with ?x = Sqlite3Error => subst x end;
  match goal with
  | E : sqlite _ ?e = Raise Sqlite3Error |- _ =>
      rewrite <- ?app_assoc in E;
      first
        [ eexists _, e, _; split; [|exact E];
          rewrite <- ?app_assoc; reflexivity
        | exists [], e; eexists; split; [|rewrite app_nil_r; exact E];
          rewrite <- ?app_assoc; reflexivity ]
  end.

Ltac run_proof H :=
  answers H;
  (split; intros Hr;
   [ first [ now rewrite <- ?app_assoc
           | now apply after_exception_not_true in Hr
           | discriminate ]
   | first [ discriminate | refusal Hr ] ]).

Lemma cria_banco_de_dados_run (nome_banco : string) (h h' : db_trace)
    (r : result bool) :
  cria_banco_de_dados sqlite nome_banco h = (h', r) ->
  (r = Ok true ->
   h' = (h ++ [DbConnect (db_file nome_banco);
               DbExit (db_file nome_banco) true])%list)
  /\ (r = Ok false -> refused_after sqlite h h').
Proof.
  unfold cria_banco_de_dados, db_file, except_sqlite3, with_connection, perform.
  unfold mbind, dbio_bind, mret, dbio_ret.
  set (nome := if negb (endswith nome_banco ".db") then _ else _).
  intros H. run_proof H.
Qed.

Lemma cria_tabela_dict_run (colunas_tipo : list (string * string))
    (nome_tabela nome_banco : string) (h h' : db_trace) (r : result bool) :
  cria_tabela_dict sqlite colunas_tipo nome_tabela nome_banco h = (h', r) ->
  (r = Ok true ->
   h' = (h ++ table_script colunas_tipo nome_tabela nome_banco)%list)
  /\ (r = Ok false -> refused_after sqlite h h').
Proof.
  unfold cria_tabela_dict, table_script, except_sqlite3, with_connection,
    perform.
  unfold mbind, dbio_bind, mret, dbio_ret.
  intros H. run_proof H.
Qed.

Lemma cria_pk_composta_run (nome_tabela : string) (colunas_pk : list string)
    (nome_banco : string) (h h' : db_trace) (r : result bool) :
  (2 <= List.length colunas_pk)%nat ->
  cria_pk_composta sqlite nome_tabela colunas_pk nome_banco h = (h', r) ->
  (r = Ok true ->
   h' = (h ++ [DbConnect nome_banco;
               DbExecute nome_banco (sql_create_index nome_tabela colunas_pk);
               DbCommit nome_banco;
               DbExit nome_banco true])%list)
  /\ (r = Ok false -> refused_after sqlite h h').
Proof.
  intros Hlen. unfold cria_pk_composta.
  destruct (Nat.ltb_spec (List.length colunas_pk) 2) as [Hlt|_]; [lia|].
  unfold except_sqlite3, with_connection, perform.
  unfold mbind, dbio_bind, mret, dbio_ret.
  intros H. run_proof H.
Qed.

End DatabaseRuns.

Section MainDatabaseRuns.

Variable sqlite : db_trace -> db_event -> result unit.

Lemma step_true (m k : dbio bool) (h h' : db_trace) :
  (m ≫= (fun ok : bool => if negb ok then mret false else k)) h = (h', Ok true) ->
  exists h1, m h = (h1, Ok true) /\ k h1 = (h', Ok true).
Proof.
  unfold mbind, dbio_bind. destruct (m h) as [h1 [[|]|x]]; cbn; intros H.
  - eauto.
  - inversion H.
  - inversion H.
Qed.

Lemma step_false (m k : dbio bool) (h h' : db_trace) :
  (m ≫= (fun ok : bool => if negb ok then mret false else k)) h = (h', Ok false) ->
  m h = (h', Ok false) \/ exists h1, m h = (h1, Ok true) /\ k h1 = (h', Ok false).
Proof.
  unfold mbind, dbio_bind. destruct (m h) as [h1 [[|]|x]]; cbn; intros H.
  - right. eauto.
  - left. inversion H. reflexivity.
  - inversion H.
Qed.

Lemma refused_after_extend (h0 s h : db_trace) :
  refused_after sqlite (h0 ++ s)%list h -> refused_after sqlite h0 h.
Proof.
  intros (h1 & e & h2 & -> & He). exists (s ++ h1)%list, e, h2.
  rewrite !app_assoc in *. split; [reflexivity|exact He].
Qed.

Lemma main_database_true_script (nome_banco : string) (h h' : db_trace) :
  main_database sqlite nome_banco h = (h', Ok true) ->
  h' = (h ++ full_script nome_banco)%list.
Proof.
  unfold main_database. intros H.
  apply step_true in H as (h1 & H1 & H).
  apply step_true in H as (h2 & H2 & H).
  apply step_true in H as (h3 & H3 & H).
  apply step_true in H as (h4 & H4 & H).
  apply step_true in H as (h5 & H5 & H).
  apply step_true in H as (h6 & H6 & H).
  apply step_true in H as (h7 & H7 & H).
  inversion H; subst h7; clear H.
  apply cria_banco_de_dados_run in H1 as [H1 _].
  apply cria_tabela_dict_run in H2 as [H2 _].
  apply cria_tabela_dict_run in H3 as [H3 _].
  apply cria_tabela_dict_run in H4 as [H4 _].
  apply cria_tabela_dict_run in H5 as [H5 _].
  apply cria_tabela_dict_run in H6 as [H6 _].
  apply cria_pk_composta_run in H7 as [H7 _]; [|cbn; lia].
  rewrite (H7 eq_refl), (H6 eq_refl), (H5 eq_refl), (H4 eq_refl),
    (H3 eq_refl), (H2 eq_refl), (H1 eq_refl).
  unfold full_script. now rewrite <- !app_assoc.
Qed.

Lemma main_database_false_refused (nome_banco : string) (h h' : db_trace) :
  main_database sqlite nome_banco h = (h', Ok false) ->
  refused_after sqlite h h'.
Proof.
  unfold main_database. intros H.
  apply step_false in H as [H|(h1 & H1 & H)];
    [now apply cria_banco_de_dados_run in H as [_ H]; apply H|].
  apply cria_banco_de_dados_run in H1 as [H1 _]. rewrite (H1 eq_refl) in H.
  apply (refused_after_extend h
           [DbConnect (db_file nome_banco); DbExit (db_file nome_banco) true]
           h').
  clear H1. revert H. generalize (h ++ [DbConnect (db_file nome_banco);
                                        DbExit (db_file nome_banco) true])%list.
  clear h. intros h H.
  repeat match type of H with
         | (cria_tabela_dict _ ?c ?t ?b ≫= _) _ = _ =>
             let h1 := fresh "h" in
             let H1 := fresh "H" in
             apply step_false in H as [H|(h1 & H1 & H)];
             [now apply cria_tabela_dict_run in H as [_ H]; apply H|];
             apply cria_tabela_dict_run in H1 as [H1 _];
             rewrite (H1 eq_refl) in H;
             apply (refused_after_extend _ (table_script c t b) _);
             clear H1
         end.
  apply step_false in H as [H|(hz & Hz & H)].
  - apply cria_pk_composta_run in H as [_ H]; [now apply H|cbn; lia].
  - inversion H.
Qed.

Lemma main_database_accepted (nome_banco : string) (h : db_trace) :
  (forall h e, sqlite h e = Ok tt) ->
  main_database sqlite nome_banco h = ((h ++ full_script nome_banco)%list, Ok true).
Proof.
  intros Hacc.
  unfold main_database, cria_banco_de_dados, cria_tabela_dict,
    cria_pk_composta, except_sqlite3, with_connection, perform.
  unfold mbind, dbio_bind, mret, dbio_ret.
  repeat (rewrite Hacc; cbn).
  rewrite <- !app_assoc. reflexivity.
Qed.

End MainDatabaseRuns.

(** X20: [main_database] returns [True] only after the whole script: the
    connection to the database file, then for each of the five tables, in
    the order Repres, FornClien, Produtos, Pedidos, PedidosItem, a DROP
    TABLE IF EXISTS followed by the CREATE TABLE and a commit, then the
    unique index pk_pedidositem on (NUMPED, NUMITEM). *)
Theorem main_database_true
    (sqlite : db_trace -> db_event -> result unit) (nome_banco : string)
    (h h' : db_trace) :
  main_database sqlite nome_banco h = (h', Ok true) ->
  h' = (h ++ full_script nome_banco)%list.
Proof. apply main_database_true_script. Qed.

Lemma main_database_true_witness :
  fst (main_database sqlite_accepts "bd_erp_n2.db" [])
  = ([] ++ full_script "bd_erp_n2.db")%list.
Proof.
  apply (main_database_true sqlite_accepts "bd_erp_n2.db" []).
  vm_compute. reflexivity.
Defined.

(** X21: with a driver that accepts every request, [main_database] performs
    the whole script and returns [True], whatever the database name and
    whatever happened before. *)
Theorem main_database_accepting_driver
    (sqlite : db_trace -> db_event -> result unit) (nome_banco : string)
    (h : db_trace) :
  (forall h e, sqlite h e = Ok tt) ->
  main_database sqlite nome_banco h = ((h ++ full_script nome_banco)%list, Ok true).
Proof. apply main_database_accepted. Qed.

Lemma main_database_accepting_driver_witness :
  main_database sqlite_accepts "loja" []
  = (([] ++ full_script "loja")%list, Ok true).
Proof.
  apply (main_database_accepting_driver sqlite_accepts "loja" []).
  intros h e. reflexivity.
Defined.

(** X22: [main_database] returns [False] only when the driver raised
    [sqlite3.Error] on one of the requests of the run. *)
Theorem main_database_false
    (sqlite : db_trace -> db_event -> result unit) (nome_banco : string)
    (h h' : db_trace) :
  main_database sqlite nome_banco h = (h', Ok false) ->
  refused_after sqlite h h'.
Proof. apply main_database_false_refused. Qed.

Lemma main_database_false_witness :
  refused_after (sqlite_refuses_create "Produtos") []
    (fst (main_database (sqlite_refuses_create "Produtos") "bd_erp_n2.db" [])).
Proof.
  apply (main_database_false (sqlite_refuses_create "Produtos") "bd_erp_n2.db").
  vm_compute. reflexivity.
Defined.

(** X23: [cria_pk_composta] asks for at least two columns: with fewer it returns
    [False] without opening a connection; with two or more its first
    request is the connection to the database. *)
Theorem cria_pk_composta_needs_two_columns
    (sqlite : db_trace -> db_event -> result unit) (nome_tabela : string)
    (colunas_pk : list string) (nome_banco : string) (h : db_trace) :
  ((List.length colunas_pk < 2)%nat ->
   cria_pk_composta sqlite nome_tabela colunas_pk nome_banco h = (h, Ok false))
  /\ ((2 <= List.length colunas_pk)%nat ->
      exists rest r,
        cria_pk_composta sqlite nome_tabela colunas_pk nome_banco h
        = ((h ++ DbConnect nome_banco :: rest)%list, r)).
Proof.
  unfold cria_pk_composta. split; intros Hlen.
  - destruct (Nat.ltb_spec (List.length colunas_pk) 2) as [_|Hge]; [|lia].
    reflexivity.
  - destruct (Nat.ltb_spec (List.length colunas_pk) 2) as [Hlt|_]; [lia|].
    unfold except_sqlite3, with_connection, perform.
    unfold mbind, dbio_bind, mret, dbio_ret.
    repeat match goal with
           | |- context [sqlite ?h ?e] => destruct (sqlite h e) as [[]|?]; cbn
           end;
      eexists _, _; rewrite <- ?app_assoc; reflexivity.
Qed.

Lemma db_file_same (nome_banco : string) :
  db_file nome_banco = nome_banco <-> endswith nome_banco ".db" = true.
Proof.
  unfold db_file. destruct (endswith nome_banco ".db"); cbn; [tauto|].
  split; [|discriminate]. intros H.
  apply (f_equal String.length) in H. rewrite append_length in H. cbn in H. lia.
Qed.

(** X24: the database file and the database of the tables are the same only
    when the name given ends in ".db".  In a complete run started from
    nothing, the first connection goes to the name with ".db" appended if
    it was missing, and every later request goes to the name as given. *)
Theorem main_database_files
    (sqlite : db_trace -> db_event -> result unit) (nome_banco : string)
    (h' : db_trace) :
  main_database sqlite nome_banco [] = (h', Ok true) ->
  exists rest,
    h' = DbConnect (db_file nome_banco) :: DbExit (db_file nome_banco) true :: rest
    /\ Forall (fun e => db_of e = nome_banco) rest
    /\ (endswith nome_banco ".db" = true -> db_file nome_banco = nome_banco)
    /\ (endswith nome_banco ".db" = false ->
        db_file nome_banco = nome_banco ++ ".db"
        /\ db_file nome_banco <> nome_banco).
Proof.
  intros Hrun. apply main_database_true_script in Hrun. subst h'.
  eexists. split; [reflexivity|]. split; [repeat constructor|].
  split; intros He.
  - now apply db_file_same.
  - split; [unfold db_file; now rewrite He|].
    intros Hsame. apply db_file_same in Hsame. congruence.
Qed.

Lemma main_database_files_witness :
  exists rest,
    fst (main_database sqlite_accepts "loja" [])
    = DbConnect (db_file "loja") :: DbExit (db_file "loja") true :: rest
    /\ Forall (fun e => db_of e = "loja") rest
    /\ (endswith "loja" ".db" = true -> db_file "loja" = "loja")
    /\ (endswith "loja" ".db" = false ->
        db_file "loja" = "loja" ++ ".db" /\ db_file "loja" <> "loja").
Proof.
  apply (main_database_files sqlite_accepts "loja").
  vm_compute. reflexivity.
Defined.

(** The columns each planned insert names are those of a CREATE TABLE
    statement of the full script for the same table. *)
Lemma planned_inserts_created_columns (c1 c2 c3 c4 c5 : list tuple)
    (nome_banco nome_tabela banco : string) (colunas : list string)
    (dados : list tuple) :
  In (EvInsert nome_tabela colunas dados banco)
    (planned_inserts c1 c2 c3 c4 c5 nome_banco) ->
  exists colunas_tipo,
    In (DbExecute nome_banco (sql_create colunas_tipo nome_tabela))
      (full_script nome_banco)
    /\ map fst colunas_tipo = colunas.
Proof.
  intros [E|[E|[E|[E|[E|[]]]]]]; inversion E; subst.
  - exists colunas_repres. split; [cbn; tauto|reflexivity].
  - exists MainDatabase.colunas_fornclien. split; [cbn; tauto|reflexivity].
  - exists MainDatabase.colunas_produtos. split; [cbn; tauto|reflexivity].
  - exists colunas_pedidos. split; [cbn; tauto|reflexivity].
  - exists colunas_pedidositem. split; [cbn; tauto|reflexivity].
Qed.

(** X19: the columns an insert of [main_etl] names are the columns
    [main_database] creates for that table, in the same order: whenever a
    run of [main_etl] makes an insert, every run of [main_database] on the
    same database that returned [True] has executed a CREATE TABLE for the
    table of the insert whose column names are the ones the insert lists. *)
Theorem inserts_name_created_columns
    (fs : string -> option (list (list string)))
    (executemany :
      trace -> string -> list string -> list tuple -> string -> result unit)
    (sqlite : db_trace -> db_event -> result unit)
    (nome_banco : string) (t : trace) (r : result bool) (h h' : db_trace)
    (nome_tabela : string) (colunas : list string) (dados : list tuple)
    (banco : string) :
  main_etl fs executemany nome_banco [] = (t, r) ->
  In (EvInsert nome_tabela colunas dados banco) t ->
  main_database sqlite nome_banco h = (h', Ok true) ->
  exists colunas_tipo,
    In (DbExecute nome_banco (sql_create colunas_tipo nome_tabela)) h'
    /\ map fst colunas_tipo = colunas.
Proof.
  intros Hetl Hin Hdb.
  destruct (main_etl_insert_is_planned fs executemany nome_banco t r _
              Hetl Hin eq_refl)
    as (d1 & d2 & d3 & d4 & d5 & V1 & V2 & V3 & V4 & c1 & c2 & c3 & c4 & c5
        & _ & _ & Hplanned).
  destruct (planned_inserts_created_columns c1 c2 c3 c4 c5 nome_banco
              nome_tabela banco colunas dados Hplanned)
    as (colunas_tipo & Hcreate & Hnames).
  exists colunas_tipo. split; [|exact Hnames].
  rewrite (main_database_true_script sqlite nome_banco h h' Hdb).
  apply in_or_app. now right.
Qed.

Lemma inserts_name_created_columns_witness :
  exists colunas_tipo,
    In (DbExecute "bd_erp_n2.db" (sql_create colunas_tipo "Produtos"))
      (fst (main_database sqlite_accepts "bd_erp_n2.db" []))
    /\ map fst colunas_tipo
       = ["CODPROD"; "NOMEPROD"; "CODFORNE"; "UNIDADE"; "ALIQICMS";
          "VALCUSTO"; "VALVENDA"; "QTDEMIN"; "QTDEESTQ"; "GRUPO";
          "CLASSEESTQ"; "COMISSAO"; "PESOBRUTO"].
Proof.
  apply (inserts_name_created_columns acme_fs accept_all sqlite_accepts
           "bd_erp_n2.db"
           (fst (main_etl acme_fs accept_all "bd_erp_n2.db" []))
           (snd (main_etl acme_fs accept_all "bd_erp_n2.db" []))
           [] (fst (main_database sqlite_accepts "bd_erp_n2.db" []))
           "Produtos" _ [] "bd_erp_n2.db").
  - vm_compute. reflexivity.
  - vm_compute. do 7 right. left. reflexivity.
  - vm_compute. reflexivity.
Defined.

Lemma cria_pk_composta_needs_two_columns_witness :
  cria_pk_composta sqlite_accepts "PedidosItem" ["NUMPED"] "bd_erp_n2.db" []
  = ([], Ok false).
Proof.
  apply (proj1 (cria_pk_composta_needs_two_columns sqlite_accepts "PedidosItem"
                  ["NUMPED"] "bd_erp_n2.db" [])).
  simpl. lia.
Defined.

(** ** Integer numerals *)

Lemma digits2_pos_iter (p k : positive) :
  digits2_pos (Pos.iter xO p k) = (digits2_pos p + k)%positive.
Proof.
  induction k as [|k IH] using Pos.peano_ind.
  - cbn. lia.
  - rewrite Pos.iter_succ. cbn [digits2_pos]. rewrite IH. lia.
Qed.

Lemma digits2_pos_lower (p : positive) :
  2 ^ (Zpos (digits2_pos p) - 1) <= Zpos p.
Proof.
  induction p as [p IH|p IH|]; cbn [digits2_pos]; [| |cbn; lia].
  - replace (Zpos (Pos.succ (digits2_pos p)) - 1) with
      (Z.succ (Zpos (digits2_pos p) - 1)) by lia.
    rewrite Z.pow_succ_r by lia. lia.
  - replace (Zpos (Pos.succ (digits2_pos p)) - 1) with
      (Z.succ (Zpos (digits2_pos p) - 1)) by lia.
    rewrite Z.pow_succ_r by lia. lia.
Qed.

Lemma digits2_pos_53 (p : positive) :
  Zpos p < 2 ^ 53 -> Zpos (digits2_pos p) <= 53.
Proof.
  intros Hp. pose proof (digits2_pos_lower p) as Hl.
  destruct (Z_le_gt_dec (Zpos (digits2_pos p)) 53) as [H|H]; [exact H|].
  exfalso.
  assert (2 ^ 53 <= 2 ^ (Zpos (digits2_pos p) - 1))
    by (apply Z.pow_le_mono_r; lia).
  lia.
Qed.
Lemma div_eucl_by_one (a : Z) : 0 <= a -> Z.div_eucl a 1 = (a, 0).
Proof.
  intros Ha. pose proof (Z_div_mod a 1 ltac:(lia)) as H.
  destruct (Z.div_eucl a 1) as [q r]. destruct H as [H1 H2].
  f_equal; lia.
Qed.

Lemma shiftl_pos_iter (p k : positive) :
  Z.shiftl (Zpos p) (Zpos k) = Zpos (Pos.iter xO p k).
Proof.
  unfold Z.shiftl. induction k as [|k IH] using Pos.peano_ind; [reflexivity|].
  now rewrite !Pos.iter_succ, IH.
Qed.

Lemma iter_xO_even (p k : positive) :
  exists q, Pos.iter xO p k = xO q
            /\ digits2_pos q = Pos.pred (digits2_pos p + k)
            /\ Zpos q = Zpos p * 2 ^ (Zpos k - 1).
Proof.
  induction k as [|k IH] using Pos.peano_ind.
  - exists p. cbn. split; [reflexivity|]. split; lia.
  - destruct IH as (q & Hq & Hd & Hv). rewrite Pos.iter_succ, Hq.
    exists (xO q). split; [reflexivity|]. cbn [digits2_pos]. split; [lia|].
    replace (Zpos (Pos.succ k) - 1) with (Z.succ (Zpos k - 1)) by lia.
    rewrite Z.pow_succ_r by lia. lia.
Qed.

Lemma SFdiv_core_by_one (p : positive) :
  Zpos p < 2 ^ 53 ->
  exists q,
    SFdiv_core_binary 53 1024 (Zpos p) 0 1 0
    = (Zpos (xO q), Zpos (digits2_pos p) - 54, loc_Exact)
    /\ digits2_pos q = 53%positive
    /\ Zpos q = Zpos p * 2 ^ (53 - Zpos (digits2_pos p)).
Proof.
  intros Hp. pose proof (digits2_pos_53 p Hp) as Hd.
  unfold SFdiv_core_binary, fexp, emin. unfold Zdigits2. cbn [digits2_pos].
  set (d := Zpos (digits2_pos p)) in *.
  assert (E : Z.min (Z.max (d + 0 - (1 + 0) - 53) (3 - 1024 - 53)) (0 - 0)
              = d - 54) by lia.
  rewrite E.
  assert (E2 : 0 - 0 - (d - 54) = Zpos (Z.to_pos (54 - d))) by lia.
  rewrite E2. rewrite shiftl_pos_iter.
  destruct (iter_xO_even p (Z.to_pos (54 - d))) as (q & Hq & Hdq & Hv).
  rewrite Hq. rewrite div_eucl_by_one by lia.
  exists q. split; [reflexivity|]. split.
  - unfold d in *. lia.
  - rewrite Hv. f_equal. f_equal. lia.
Qed.
Lemma binary_round_aux_exact (s : bool) (q : positive) (e : Z) :
  digits2_pos q = 53%positive -> -1074 <= e + 1 -> e + 1 <= 971 ->
  binary_round_aux 53 1024 s (Zpos (xO q)) e loc_Exact = S754_finite s q (e + 1).
Proof.
  intros Hq He1 He2.
  unfold binary_round_aux, shr_fexp, fexp, emin. unfold Zdigits2.
  cbn [digits2_pos shr_record_of_loc]. rewrite Hq.
  assert (E : Z.max (Zpos (Pos.succ 53) + e - 53) (3 - 1024 - 53) - e = 1) by lia.
  rewrite E. cbn [shr SpecFloat.iter_pos shr_1 orb shr_m loc_of_shr_record
                  round_nearest_even shr_record_of_loc].
  rewrite Hq.
  assert (E2 : Z.max (53 + (e + 1) - 53) (3 - 1024 - 53) - (e + 1) = 0) by lia.
  rewrite E2. cbn [shr shr_m].
  destruct (Z.leb_spec (e + 1) (1024 - 53)) as [_|H]; [reflexivity|lia].
Qed.

(** A positive integer below 2^53 is a binary64 number: dividing it by one
    is exact, and truncating the quotient gives the integer back. *)
Lemma SFdiv_by_one (s : bool) (p : positive) :
  Zpos p < 2 ^ 53 ->
  exists (m : positive) (e : Z),
    SFdiv Builtins.prec Builtins.emax (S754_finite s p 0) (S754_finite false 1 0)
    = S754_finite s m e
    /\ Builtins.py_int (S754_finite s m e)
       = Ok (if s then Zneg p else Zpos p).
Proof.
  intros Hp. pose proof (digits2_pos_53 p Hp) as Hd.
  destruct (SFdiv_core_by_one p Hp) as (q & Hcore & Hdq & Hv).
  unfold SFdiv, Builtins.prec, Builtins.emax. rewrite Hcore.
  rewrite binary_round_aux_exact by (try exact Hdq; lia).
  rewrite xorb_false_r.
  exists q, (Zpos (digits2_pos p) - 54 + 1). split; [reflexivity|].
  unfold Builtins.py_int.
  set (d := Zpos (digits2_pos p)) in *.
  assert (Hq : Zpos q = Zpos p * 2 ^ (53 - d)) by exact Hv.
  destruct (d - 54 + 1) as [|k|k] eqn:Ek; [|lia|].
  - replace (53 - d) with 0 in Hq by lia. rewrite Z.shiftl_0_r.
    rewrite Z.pow_0_r, Z.mul_1_r in Hq. inversion Hq. now destruct s.
  - rewrite Z.shiftr_div_pow2 by lia. rewrite Hq.
    replace (53 - d) with (Zpos k) by lia.
    rewrite Z.div_mul by (apply Z.pow_nonzero; lia). now destruct s.
Qed.
Lemma digit_facts (c : ascii) :
  Builtins.is_digit c = true ->
  Builtins.is_space c = false
  /\ Ascii.eqb c Builtins.comma = false
  /\ Ascii.eqb c "-" = false
  /\ Ascii.eqb c "+" = false
  /\ Ascii.eqb (Builtins.to_lower c) "i" = false
  /\ Ascii.eqb (Builtins.to_lower c) "n" = false
  /\ 0 <= Builtins.digit_val c.
Proof.
  destruct c as [[] [] [] [] [] [] [] []]; vm_compute; intros H;
    try discriminate H; repeat split; discriminate.
Qed.

Lemma digits_tail_all (ds : list ascii) :
  Forall (fun c => Builtins.is_digit c = true) ds ->
  Builtins.digits_tail ds = (ds, []).
Proof.
  induction 1 as [|c ds Hc _ IH]; [reflexivity|].
  cbn [Builtins.digits_tail]. now rewrite Hc, IH.
Qed.

Lemma digits_value_nonneg (ds : list ascii) :
  Forall (fun c => Builtins.is_digit c = true) ds ->
  0 <= Builtins.digits_value ds.
Proof.
  unfold Builtins.digits_value. intros H.
  assert (G : forall acc, 0 <= acc ->
            0 <= fold_left (fun acc c => 10 * acc + Builtins.digit_val c) ds acc).
  { induction H as [|c ds Hc _ IH]; intros acc Hacc; [exact Hacc|].
    cbn [fold_left]. apply IH.
    destruct (digit_facts c Hc) as (_ & _ & _ & _ & _ & _ & Hv). lia. }
  apply G. lia.
Qed.

Lemma strip_none (l : list ascii) :
  Forall (fun c => Builtins.is_space c = false) l -> Builtins.strip l = l.
Proof.
  intros H. unfold Builtins.strip.
  assert (G : forall l', Forall (fun c => Builtins.is_space c = false) l' ->
                         Builtins.lstrip l' = l').
  { intros l' Hl'. destruct Hl' as [|c l' Hc _]; [reflexivity|].
    cbn [Builtins.lstrip]. now rewrite Hc. }
  rewrite (G l H). rewrite G; [apply rev_involutive|].
  apply List.Forall_forall. intros c Hc. apply List.in_rev in Hc.
  rewrite List.Forall_forall in H. now apply H.
Qed.

Lemma py_int_round_decimal (s : bool) (m : Z) :
  0 <= m < 2 ^ 53 ->
  exists f, Builtins.round_decimal s m 0 = f
            /\ Builtins.py_int f = Ok (if s then - m else m).
Proof.
  intros Hm. unfold Builtins.round_decimal.
  destruct m as [|p|p]; [| |lia].
  - eexists. split; [reflexivity|]. now destruct s.
  - change (Z.to_pos (Zpos p * 10 ^ Z.max 0 0)) with (Z.to_pos (Zpos p * 1)).
    rewrite Z.mul_1_r. cbn [Z.to_pos].
    change (Z.to_pos (10 ^ Z.max (- 0) 0)) with 1%positive.
    destruct (SFdiv_by_one s p ltac:(lia)) as (m & e & -> & Hint).
    eexists. split; [reflexivity|]. rewrite Hint. now destruct s.
Qed.

(** X1: an integer numeral below 2^53 coerces to exactly its value: once the
    commas are removed, a text made of an optional minus sign and decimal
    digits, leading zeros included, gives the integer it denotes; the
    detour through a binary64 float loses nothing. *)
Theorem integer_numerals_are_exact (s : string) (neg : bool) (ds : list ascii) :
  Builtins.remove_commas s
  = string_of_list_ascii ((if neg then ["-"%char] else []) ++ ds) ->
  ds <> [] ->
  Forall (fun c => Builtins.is_digit c = true) ds ->
  Builtins.digits_value ds < 2 ^ 53 ->
  _safe_convert_to_int (Some s)
  = Ok (Some (if neg then - Builtins.digits_value ds
              else Builtins.digits_value ds)).
Proof.
  intros Hclean Hne Hds Hlt.
  destruct ds as [|d ds]; [contradiction|]. clear Hne.
  pose proof (digits_value_nonneg _ Hds) as Hge.
  assert (Hd : Builtins.is_digit d = true) by now inversion Hds.
  assert (Hds' : Forall (fun c => Builtins.is_digit c = true) ds)
    by now inversion Hds.
  destruct (digit_facts d Hd) as (Hsp & Hco & Hmi & Hpl & Hi & Hn & _).
  set (l := ((if neg then ["-"%char] else []) ++ d :: ds)%list) in *.
  assert (Hspace : Forall (fun c => Builtins.is_space c = false) l).
  { unfold l. apply Forall_app. split; [destruct neg; repeat constructor|].
    eapply Forall_impl; [exact Hds|]. intros c Hc. now apply digit_facts. }
  rewrite safe_int_of_cleaned, Hclean.
  unfold int_of_cleaned, Builtins.py_float.
  rewrite list_ascii_of_string_of_list_ascii, (strip_none l Hspace).
  assert (Hsign : Builtins.take_sign l = (neg, d :: ds)).
  { unfold l. destruct neg; [reflexivity|].
    cbn [app Builtins.take_sign]. now rewrite Hmi, Hpl. }
  rewrite Hsign.
  assert (Hspecial : Builtins.special neg (d :: ds) = None).
  { unfold Builtins.special. cbn [map string_of_list_ascii String.eqb].
    now rewrite Hi, Hn. }
  rewrite Hspecial.
  assert (Hnum : Builtins.floatnumber neg (d :: ds)
                 = Some (Builtins.round_decimal neg
                           (Builtins.digits_value (d :: ds)) 0)).
  { unfold Builtins.floatnumber, Builtins.digitpart.
    rewrite Hd, (digits_tail_all ds Hds'). cbn [Builtins.exponent].
    now rewrite app_nil_r. }
  rewrite Hnum.
  destruct (py_int_round_decimal neg (Builtins.digits_value (d :: ds))
              ltac:(lia)) as (f & -> & ->).
  reflexivity.
Qed.

Lemma integer_numerals_are_exact_witness :
  _safe_convert_to_int (Some "-9,007,199,254,740,991")
  = Ok (Some (- 9007199254740991)).
Proof.
  apply (integer_numerals_are_exact "-9,007,199,254,740,991" true
           (list_ascii_of_string "9007199254740991")).
  - reflexivity.
  - discriminate.
  - repeat constructor.
  - vm_compute. reflexivity.
Defined.

(** ** Edge cases of the run *)

(** X17: files that hold a header line and nothing else are read like any
    other: with a sink that accepts every insert, [main_etl] makes the five
    inserts with no tuple in them and returns [True]. *)
Theorem main_etl_header_only
    (fs : string -> option (list (list string)))
    (executemany :
      trace -> string -> list string -> list tuple -> string -> result unit)
    (nome_banco : string) :
  (forall filename,
      In filename [file_repres; file_fornclien; file_produtos; file_pedidos;
                   file_pedidositem] ->
      exists header, fs filename = Some [header]) ->
  (forall h nome_tabela colunas dados banco,
      executemany h nome_tabela colunas dados banco = Ok tt) ->
  main_etl fs executemany nome_banco []
  = ((reads ++ planned_inserts [] [] [] [] [] nome_banco)%list, Ok true).
Proof.
  intros Hfs Hacc.
  assert (Hdata : forall filename,
             In filename [file_repres; file_fornclien; file_produtos;
                          file_pedidos; file_pedidositem] ->
             data_of fs filename = Some []).
  { intros f Hf. destruct (Hfs f Hf) as [header Hh].
    unfold data_of. now rewrite Hh. }
  destruct (main_etl_cases fs executemany nome_banco)
    as [[Hun _]|(d1 & d2 & d3 & d4 & d5 & V1 & V2 & V3 & V4 & Hex & Hcase)].
  { exfalso. destruct Hun as [H|[H|[H|[H|H]]]];
      rewrite Hdata in H; try discriminate; cbn; tauto. }
  destruct Hex as (H1 & H2 & H3 & H4 & H5 & HV1 & HV2 & HV3 & HV4).
  rewrite Hdata in H1, H2, H3, H4, H5 by (cbn; tauto).
  inversion H1; inversion H2; inversion H3; inversion H4; inversion H5.
  subst d1 d2 d3 d4 d5.
  destruct Hcase as [[Ht _]|(c1 & c2 & c3 & c4 & c5 & Ht & Hr)];
    [discriminate Ht|].
  inversion Ht; subst. rewrite Hr.
  unfold planned_inserts. cbn [run_inserts answer]. rewrite !Hacc.
  reflexivity.
Qed.

Lemma main_etl_header_only_witness :
  main_etl (fun _ => Some [["header"]]) accept_all "bd_erp_n2.db" []
  = ((reads ++ planned_inserts [] [] [] [] [] "bd_erp_n2.db")%list, Ok true).
Proof.
  apply (main_etl_header_only (fun _ => Some [["header"]]) accept_all
           "bd_erp_n2.db").
  - intros filename _. exists ["header"]. reflexivity.
  - intros h nome_tabela colunas dados banco. reflexivity.
Defined.

(** X18: an empty TIPOPESS, NOMEFAN or COMISSAOBASE becomes [None] in the
    Representative tuple, although [main_database] declares each of the
    three columns NOT NULL. *)
Theorem repres_none_in_not_null_column (row : list string) (t : tuple)
    (i : nat) :
  repres_row row = Ok t ->
  (1 <= i <= 3)%nat ->
  nth_error row i = Some "" ->
  nth_error t i = Some VNone
  /\ exists coluna tipo,
      nth_error colunas_repres i = Some (coluna, tipo)
      /\ not_null tipo = true.
Proof.
  unfold repres_row, or_lit, str_at, float_at, getitem.
  intros H Hi Hnth.
  assert (Hcase : i = 1%nat \/ i = 2%nat \/ i = 3%nat) by lia.
  destruct Hcase as [->|[->| ->]]; cells_of H.
  - rewrite Hnth in Hc0. inversion Hc0; subst.
    split; [reflexivity|eexists _, _; split; reflexivity].
  - rewrite Hnth in Hc1. inversion Hc1; subst.
    split; [reflexivity|eexists _, _; split; reflexivity].
  - rewrite Hnth in Hc2. inversion Hc2; subst.
    split; [reflexivity|eexists _, _; split; reflexivity].
Qed.

Lemma repres_none_in_not_null_column_witness :
  nth_error [VInt 10; VNone; VStr "Acme"; VNone] 1 = Some VNone
  /\ exists coluna tipo,
      nth_error colunas_repres 1 = Some (coluna, tipo)
      /\ not_null tipo = true.
Proof.
  apply (repres_none_in_not_null_column ["10"; ""; "Acme"; ""]).
  - vm_compute. reflexivity.
  - lia.
  - reflexivity.
Defined.

Lemma row_transformers_read_columns_witness :
  produtos_row {[ 7 ]} ["3"; "Cabo"; "7"] = Raise IndexError.
Proof.
  apply (proj2 (proj1 (proj2 (proj2 (row_transformers_read_columns {[ 7 ]} ∅)))
                  ["3"; "Cabo"; "7"])).
  simpl. lia.
Defined.
